(** * XRay Proxy Validator: a shallow embedding of [proxy_validator.py]

    The development follows the layout of the Python source:

    - [PyStr]: the string primitives of Python that the validator calls
      ([in], [split], [rsplit], [lower], [startswith], [join], [int]);
    - [Py]: exceptions and the state-and-exception monad in which the
      methods of [ProxyValidator] run;
    - the configuration flags of [config.py];
    - the methods of [ProxyValidator], one definition per method, with the
      network ([socket.connect], [socket.gethostbyname]) left as an oracle;
    - the theorems.

    Python [str] values are modelled as [string] (code points 0..255),
    Python [int] as [Z], and dictionaries with string keys as [gmap string]. *)

From Stdlib Require Import ZArith Ascii String List Lia Bool.
From stdpp Require Import base option list gmap strings.

Open Scope Z_scope.
Open Scope string_scope.

(** ** Python string primitives *)

Module PyStr.

(** [c in s] for a one-character needle. *)
Fixpoint contains (c : ascii) (s : string) : bool :=
  match s with
  | EmptyString => false
  | String x s' => if Ascii.eqb x c then true else contains c s'
  end.

(** [s.split(sep)] for a one-character separator: never the empty list. *)
Fixpoint split (sep : ascii) (s : string) : list string :=
  match s with
  | EmptyString => [EmptyString]
  | String x s' =>
      if Ascii.eqb x sep then EmptyString :: split sep s'
      else match split sep s' with
           | [] => [String x EmptyString]
           | h :: t => String x h :: t
           end
  end.

(** [s.rsplit(sep, 1)]: [[s]] when [sep] does not occur, otherwise the
    text before and after the last occurrence. *)
Fixpoint rsplit_1 (sep : ascii) (s : string) : list string :=
  match s with
  | EmptyString => [EmptyString]
  | String x s' =>
      match rsplit_1 sep s' with
      | [h; t] => [String x h; t]
      | _ => if Ascii.eqb x sep then [EmptyString; s'] else [String x s']
      end
  end.

(** [sep.join(l)]. *)
Fixpoint join (sep : string) (l : list string) : string :=
  match l with
  | [] => EmptyString
  | [x] => x
  | x :: l' => x ++ sep ++ join sep l'
  end.

(** [str.lower] on one code point below 256: the ASCII capitals and the
    Latin-1 capitals 0xC0..0xDE (0xD7, the multiplication sign, apart). *)
Definition lower_char (c : ascii) : ascii :=
  let n := N_of_ascii c in
  if ((65 <=? n) && (n <=? 90))%N
     || ((192 <=? n) && (n <=? 222) && negb (n =? 215))%N
  then ascii_of_N (n + 32) else c.

Fixpoint lower (s : string) : string :=
  match s with
  | EmptyString => EmptyString
  | String x s' => String (lower_char x) (lower s')
  end.

(** [s.startswith(p)]. *)
Definition startswith (p s : string) : bool := String.prefix p s.

(** *** [int(s)] in base 10

    CPython strips white space on both sides, reads one optional sign,
    then decimal digits in which single underscores may separate digits,
    and refuses more than [int_max_str_digits] digits. *)

Definition is_space (c : ascii) : bool :=
  let n := N_of_ascii c in
  (((9 <=? n) && (n <=? 13)) || (n =? 32) || (n =? 133) || (n =? 160))%N.

Definition digit_value (c : ascii) : option Z :=
  let n := N_of_ascii c in
  if ((48 <=? n) && (n <=? 57))%N then Some (Z.of_N (n - 48)) else None.

Definition is_digit (c : ascii) : bool :=
  match digit_value c with Some _ => true | None => false end.

Fixpoint lstrip (s : string) : string :=
  match s with
  | EmptyString => EmptyString
  | String x s' => if is_space x then lstrip s' else s
  end.

Fixpoint all_space (s : string) : bool :=
  match s with
  | EmptyString => true
  | String x s' => is_space x && all_space s'
  end.

(** The digit scan: accumulated value, number of digits seen, whether the
    previous character was an underscore; stops at the first character
    that is neither a digit nor an underscore and returns the rest. *)
Fixpoint scan_digits (acc : Z) (n : nat) (prev_us : bool) (s : string)
  : option (Z * nat * string) :=
  match s with
  | EmptyString => if prev_us then None else Some (acc, n, EmptyString)
  | String x s' =>
      match digit_value x with
      | Some d => scan_digits (10 * acc + d) (S n) false s'
      | None =>
          if Ascii.eqb x "_"
          then (if prev_us then None else scan_digits acc n true s')
          else if prev_us then None else Some (acc, n, s)
      end
  end.

Definition int_max_str_digits : nat := 4300.

Definition starts_with (c : ascii) (s : string) : bool :=
  match s with
  | EmptyString => false
  | String x _ => Ascii.eqb x c
  end.

(** The text after the sign: no leading underscore, at least one digit,
    only white space after the digits. *)
Definition unsigned_int (s : string) : option Z :=
  if starts_with "_" s then None
  else
    match scan_digits 0 0 false s with
    | Some (v, n, rest) =>
        if (n =? 0)%nat then None
        else if negb (all_space rest) then None
        else if (int_max_str_digits <? n)%nat then None
        else Some v
    | None => None
    end.

(** [int(s)]: [None] stands for [ValueError]. *)
Definition int (s : string) : option Z :=
  match lstrip s with
  | EmptyString => None
  | String x s' =>
      if Ascii.eqb x "+" then unsigned_int s'
      else if Ascii.eqb x "-" then Z.opp <$> unsigned_int s'
      else unsigned_int (String x s')
  end.

End PyStr.

(** ** Exceptions and the monad of the validator's methods *)

Module Py.

(** The exception classes that the validator's calls can raise. *)
Inductive exn : Type :=
| ValueError
| IndexError
| TypeError
| OverflowError
| UnicodeError
| OSError
| socket_timeout
| socket_gaierror
| KeyboardInterrupt.

(** [except (socket.timeout, socket.error, OSError)]: [socket.error] is
    [OSError], and [socket.timeout] and [socket.gaierror] derive from it. *)
Definition is_OSError (e : exn) : bool :=
  match e with
  | OSError | socket_timeout | socket_gaierror => true
  | _ => false
  end.

(** [except socket.gaierror]. *)
Definition is_gaierror (e : exn) : bool :=
  match e with
  | socket_gaierror => true
  | _ => false
  end.

(** A bare [except:]. *)
Definition any_exception (_ : exn) : bool := true.

(** The outcome of evaluating an expression: a value or a raised
    exception. *)
Inductive res (A : Type) : Type :=
| Ret (a : A)
| Raise (e : exn).
Arguments Ret {A} a.
Arguments Raise {A} e.

Definition res_bind {A B} (r : res A) (k : A -> res B) : res B :=
  match r with
  | Ret a => k a
  | Raise e => Raise e
  end.

(** [try: body / except <classes>: handler] without a state. *)
Definition res_try {A} (body : res A) (catches : exn -> bool)
    (handler : res A) : res A :=
  match body with
  | Ret a => Ret a
  | Raise e => if catches e then handler else Raise e
  end.

(** [l[i]] on a list. *)
Definition index {A} (l : list A) (i : nat) : res A :=
  match l !! i with
  | Some a => Ret a
  | None => Raise IndexError
  end.

(** Methods run in a state; what a statement did to the state before it
    raised stays done. *)
Definition M (S A : Type) : Type := S -> res A * S.

Definition ret {S A} (a : A) : M S A := fun s => (Ret a, s).

Definition bind {S A B} (m : M S A) (k : A -> M S B) : M S B :=
  fun s =>
    match m s with
    | (Ret a, s') => k a s'
    | (Raise e, s') => (Raise e, s')
    end.

Definition lift {S A} (r : res A) : M S A := fun s => (r, s).

Definition modify {S} (f : S -> S) : M S unit := fun s => (Ret tt, f s).

Definition try_except {S A} (body : M S A) (catches : exn -> bool)
    (handler : M S A) : M S A :=
  fun s =>
    match body s with
    | (Ret a, s') => (Ret a, s')
    | (Raise e, s') => if catches e then handler s' else (Raise e, s')
    end.

(** [for x in l: acc = body(x, acc)]. *)
Fixpoint for_each {S A B} (l : list A) (body : A -> B -> M S B) (acc : B)
  : M S B :=
  match l with
  | [] => ret acc
  | x :: l' => bind (body x acc) (for_each l' body)
  end.

End Py.

Import Py.

Declare Scope py_scope.
Delimit Scope py_scope with py.
Notation "'let*' x ':=' m 'in' k" := (Py.bind m (fun x => k))
  (at level 10, x pattern, m at level 100, k at level 200) : py_scope.
Notation "m ';;' k" := (Py.bind m (fun _ => k))
  (at level 100, k at level 200, right associativity) : py_scope.

(** ** Configuration ([config.py]) *)

Record Config : Type := {
  TCP_TIMEOUT : Z;
  ENABLE_STAGE3_IP_REPUTATION : bool;
  ENABLE_STAGE4_SPEED_TEST : bool;
  ENABLE_STAGE5_STABILITY : bool;
  ENABLE_STAGE6_ROUTE_QUALITY : bool;
  ENABLE_STAGE7_TLS_VALIDATION : bool;
  IP_REPUTATION_TIMEOUT : Z;
  BLACKLIST_CACHE_TIME : Z
}.

(** The values that [config.py] ships. *)
Definition config_py : Config := {|
  TCP_TIMEOUT := 3;
  ENABLE_STAGE3_IP_REPUTATION := true;
  ENABLE_STAGE4_SPEED_TEST := true;
  ENABLE_STAGE5_STABILITY := true;
  ENABLE_STAGE6_ROUTE_QUALITY := true;
  ENABLE_STAGE7_TLS_VALIDATION := true;
  IP_REPUTATION_TIMEOUT := 5;
  BLACKLIST_CACHE_TIME := 3600
|}.

(** ** The network

    [socket.socket().connect] and [socket.gethostbyname] are calls into the
    operating system.  They are an oracle over an abstract world that each
    call may change, so that answers may differ from one call to the next. *)

Record Net : Type := {
  World : Type;
  (** The body of stage 1: create a socket, set the timeout, connect to
      [(host, port)], close. *)
  net_connect : World -> Z -> string -> Z -> res unit * World;
  (** [socket.gethostbyname(name)]: the address, or an exception. *)
  net_gethostbyname : World -> string -> res string * World
}.

(** What the validator did, in order: the stages it entered and the network
    calls it issued. *)
Inductive event : Type :=
| EStage1 (host : string) (port : Z)
| EConnect (host : string) (port : Z)
| EResolve (name : string)
| EStage3 (ip : string).

(** ** Data of the validator *)

(** The dictionary returned by [stage3_ip_reputation]; the key [checks] is
    absent when the stage is disabled. *)
Record reputation : Type := {
  blacklisted : bool;
  checks : option (gmap string string)
}.

(** The values stored under [result['stages']]. *)
Inductive stage_value : Type :=
| StageBool (b : bool)
| StageReputation (r : reputation).

(** The dictionary built by [validate_proxy]; the keys [host] and [port] are
    absent until stage 1 has passed. *)
Record result : Type := {
  r_uri : string;
  r_protocol : string;
  r_valid : bool;
  r_stages : gmap string stage_value;
  r_host : option string;
  r_port : option Z
}.

(** [self.stats]. *)
Record stats : Type := {
  total : Z;
  tcp_live : Z;
  xray_live : Z;
  speed_tested : Z;
  stable : Z
}.

(** The dictionary returned by [stage7_tls_validation]. *)
Record tls_result : Type := {
  tls_valid : bool;
  tls_error : option string
}.

Notation "'let+' x ':=' r 'in' k" := (Py.res_bind r (fun x => k))
  (at level 10, x pattern, r at level 100, k at level 200) : py_scope.

Open Scope py_scope.

(** ** Methods of [ProxyValidator] that need neither network nor state *)

(** [detect_protocol]. *)
Definition detect_protocol (uri : string) : string :=
  if PyStr.startswith "vless://" (PyStr.lower uri) then "VLESS"
  else if PyStr.startswith "vmess://" (PyStr.lower uri) then "VMess"
  else if PyStr.startswith "trojan://" (PyStr.lower uri) then "Trojan"
  else if PyStr.startswith "ss://" (PyStr.lower uri) then "ShadowSocks"
  else "Unknown".

(** [int(s)] as an expression: [ValueError] when the text is no integer. *)
Definition py_int (s : string) : res Z :=
  match PyStr.int s with
  | Some n => Ret n
  | None => Raise ValueError
  end.

(** The body of the [try] block of [extract_host_port]: [Ret (Some _)] is a
    [return] inside the block, [Ret None] is the block running to its end. *)
Definition extract_host_port_try (uri : string) : res (option (string * Z)) :=
  if PyStr.contains "@" uri then
    let+ after_at := index (PyStr.split "@" uri) 1 in
    let+ host_port := index (PyStr.split "?" after_at) 0 in
    if PyStr.contains ":" host_port then
      let parts := PyStr.rsplit_1 ":" host_port in
      let+ p0 := index parts 0 in
      let+ p1 := index parts 1 in
      let+ n := py_int p1 in
      Ret (Some (p0, n))
    else Ret None
  else Ret None.

(** [extract_host_port]: the [try] block, its bare [except: pass], and the
    final [return None, None]. *)
Definition extract_host_port (uri : string) : res (option string * option Z) :=
  let+ returned := res_try (extract_host_port_try uri) any_exception (Ret None) in
  match returned with
  | Some (host, port) => Ret (Some host, Some port)
  | None => Ret (None, None)
  end.

(** [stage7_tls_validation]: the argument is not inspected. *)
Definition stage7_tls_validation {A : Type} (cfg : Config) (proxy_config : A)
  : tls_result :=
  if negb (ENABLE_STAGE7_TLS_VALIDATION cfg)
  then {| tls_valid := true; tls_error := None |}
  else {| tls_valid := false;
          tls_error := Some "TLS validation not implemented" |}.

(** Truth value of a [str]. *)
Definition str_truthy (s : string) : bool :=
  match s with
  | EmptyString => false
  | String _ _ => true
  end.

(** ** Methods of [ProxyValidator] that use the network and [self] *)

Section ProxyValidator.

Variable N : Net.
Variable cfg : Config.

(** The world, what has been done so far, and the two attributes of
    [self]. *)
Record State : Type := {
  world : World N;
  trace : list event;
  self_stats : stats;
  self_results : list result
}.

Definition emit (e : event) : M State unit :=
  modify (fun s => {| world := world s; trace := trace s ++ [e];
                      self_stats := self_stats s;
                      self_results := self_results s |}).

Definition update_stats (f : stats -> stats) : M State unit :=
  modify (fun s => {| world := world s; trace := trace s;
                      self_stats := f (self_stats s);
                      self_results := self_results s |}).

Definition results_append (r : result) : M State unit :=
  modify (fun s => {| world := world s; trace := trace s;
                      self_stats := self_stats s;
                      self_results := self_results s ++ [r] |}).

Definition with_world (w : World N) (e : event) (s : State) : State :=
  {| world := w; trace := trace s ++ [e];
     self_stats := self_stats s; self_results := self_results s |}.

(** [sock = socket.socket(...); sock.settimeout(TCP_TIMEOUT);
    sock.connect((host, port)); sock.close()]. *)
Definition sock_connect (host : string) (port : Z) : M State unit :=
  fun s =>
    let '(r, w) := net_connect N (world s) (TCP_TIMEOUT cfg) host port in
    (r, with_world w (EConnect host port) s).

(** [socket.gethostbyname(name)]. *)
Definition gethostbyname (name : string) : M State string :=
  fun s =>
    let '(r, w) := net_gethostbyname N (world s) name in
    (r, with_world w (EResolve name) s).

(** [stage1_tcp_check]. *)
Definition stage1_tcp_check (host : string) (port : Z) : M State bool :=
  emit (EStage1 host port);;
  try_except
    (sock_connect host port;; ret true)
    is_OSError
    (ret false).

Definition dnsbl_hosts : list string :=
  ["zen.spamhaus.org"; "bl.spamcop.net"; "dnsbl.sorbs.net"].

(** ['.'.join(reversed(ip_address.split('.')))]. *)
Definition reversed_ip (ip_address : string) : string :=
  PyStr.join "." (rev (PyStr.split "." ip_address)).

(** One turn of the loop of stage 3 on the entries [blacklisted] and
    [checks] of the dictionary [reputation]. *)
Definition dnsbl_check (reversed : string) (dnsbl : string)
    (reputation : bool * gmap string string)
  : M State (bool * gmap string string) :=
  try_except
    (let query := reversed ++ "." ++ dnsbl in
     gethostbyname query;;
     ret (true, <[dnsbl := "LISTED"]> (snd reputation)))
    is_gaierror
    (ret (fst reputation, <[dnsbl := "OK"]> (snd reputation))).

(** [stage3_ip_reputation]. *)
Definition stage3_ip_reputation (ip_address : string) : M State reputation :=
  emit (EStage3 ip_address);;
  if negb (ENABLE_STAGE3_IP_REPUTATION cfg)
  then ret {| blacklisted := false; checks := None |}
  else
    let* (b, c) :=
      for_each dnsbl_hosts (dnsbl_check (reversed_ip ip_address)) (false, ∅) in
    ret {| blacklisted := b; checks := Some c |}.

Definition incr_total (st : stats) : stats :=
  {| total := total st + 1; tcp_live := tcp_live st;
     xray_live := xray_live st; speed_tested := speed_tested st;
     stable := stable st |}.

Definition incr_tcp_live (st : stats) : stats :=
  {| total := total st; tcp_live := tcp_live st + 1;
     xray_live := xray_live st; speed_tested := speed_tested st;
     stable := stable st |}.

(** The dictionary [result] as [validate_proxy] first builds it. *)
Definition new_result (proxy_uri : string) : result :=
  {| r_uri := proxy_uri; r_protocol := detect_protocol proxy_uri;
     r_valid := false; r_stages := ∅; r_host := None; r_port := None |}.

(** [result['stages']['tcp'] = True; result['host'] = host;
    result['port'] = port]. *)
Definition set_tcp (host : string) (port : Z) (r : result) : result :=
  {| r_uri := r_uri r; r_protocol := r_protocol r; r_valid := r_valid r;
     r_stages := <["tcp" := StageBool true]> (r_stages r);
     r_host := Some host; r_port := Some port |}.

(** [result['stages']['ip_reputation'] = rep]. *)
Definition set_ip_reputation (rep : reputation) (r : result) : result :=
  {| r_uri := r_uri r; r_protocol := r_protocol r; r_valid := r_valid r;
     r_stages := <["ip_reputation" := StageReputation rep]> (r_stages r);
     r_host := r_host r; r_port := r_port r |}.

(** [result['valid'] = True]. *)
Definition set_valid (r : result) : result :=
  {| r_uri := r_uri r; r_protocol := r_protocol r; r_valid := true;
     r_stages := r_stages r; r_host := r_host r; r_port := r_port r |}.

(** [validate_proxy].  Stages 2 and 4 to 7 are not called by it. *)
Definition validate_proxy (proxy_uri : string) : M State result :=
  update_stats incr_total;;
  let result := new_result proxy_uri in
  let* host_port := lift (extract_host_port proxy_uri) in
  match host_port with
  | (Some host, Some port) =>
      if negb (str_truthy host) || (port =? 0)%Z then ret result
      else
        let* live := stage1_tcp_check host port in
        if live then
          update_stats incr_tcp_live;;
          let result := set_tcp host port result in
          let* result :=
            try_except
              (let* ip := gethostbyname host in
               let* rep := stage3_ip_reputation ip in
               ret (set_ip_reputation rep result))
              any_exception
              (ret result) in
          ret (set_valid result)
        else ret result
  | _ => ret result
  end.

(** [run_validation]; the two log lines and [print_stats] only print. *)
Definition run_validation (proxies : list string) : M State unit :=
  for_each proxies
    (fun proxy _ =>
       let* result := validate_proxy proxy in
       if r_valid result then results_append result else ret tt)
    tt.

(** [ProxyValidator()]: the state in which [__init__] leaves [self]. *)
Definition init (w : World N) : State :=
  {| world := w; trace := [];
     self_stats := {| total := 0; tcp_live := 0; xray_live := 0;
                      speed_tested := 0; stable := 0 |};
     self_results := [] |}.

End ProxyValidator.

Arguments world {N} s.
Arguments trace {N} s.
Arguments self_stats {N} s.
Arguments self_results {N} s.

(** ** A concrete network for examples

    A name resolves when the table [dns] has it; a connection succeeds when
    the host resolves and [(address, port)] is in [listening].  As in
    CPython the host is resolved first, then a port outside 0..65535 raises
    [OverflowError]; a refused connection raises [OSError]. *)

Fixpoint assoc (k : string) (l : list (string * string)) : option string :=
  match l with
  | [] => None
  | (k', v) :: l' => if String.eqb k k' then Some v else assoc k l'
  end.

Definition table_net (dns : list (string * string))
    (listening : list (string * Z)) : Net := {|
  World := unit;
  net_connect _ _ host port :=
    (match assoc host dns with
     | None => Raise socket_gaierror
     | Some ip =>
         if ((port <? 0) || (65535 <? port))%Z then Raise OverflowError
         else if existsb (fun a => String.eqb (fst a) ip && (snd a =? port)%Z)
                         listening
              then Ret tt else Raise OSError
     end, tt);
  net_gethostbyname _ name :=
    (match assoc name dns with
     | Some ip => Ret ip
     | None => Raise socket_gaierror
     end, tt)
|}.

(** ** The anatomy of a proxy URI

    The pieces that [extract_host_port] cuts out of a URI, written without
    lists: the text around the first and around the last occurrence of a
    character. *)

Fixpoint before_first (c : ascii) (s : string) : string :=
  match s with
  | EmptyString => EmptyString
  | String x s' => if Ascii.eqb x c then EmptyString
                   else String x (before_first c s')
  end.

Fixpoint after_first (c : ascii) (s : string) : string :=
  match s with
  | EmptyString => EmptyString
  | String x s' => if Ascii.eqb x c then s' else after_first c s'
  end.

(** The text before the last [c]; empty when [c] does not occur. *)
Fixpoint before_last (c : ascii) (s : string) : string :=
  match s with
  | EmptyString => EmptyString
  | String x s' => if PyStr.contains c s' then String x (before_last c s')
                   else EmptyString
  end.

(** The text after the last [c]; all of [s] when [c] does not occur. *)
Fixpoint after_last (c : ascii) (s : string) : string :=
  match s with
  | EmptyString => EmptyString
  | String x s' => if PyStr.contains c s' then after_last c s'
                   else if Ascii.eqb x c then s' else s
  end.

(** What [extract_host_port] reads host and port from: the text after the
    first [@], up to the next [@] or the first [?]. *)
Definition authority (uri : string) : string :=
  before_first "?" (before_first "@" (after_first "@" uri)).

(** The URIs from which no host and port come out: no [@], no [:] in the
    authority, or a port text that [int] refuses. *)
Definition malformed (uri : string) : bool :=
  negb (PyStr.contains "@" uri)
  || negb (PyStr.contains ":" (authority uri))
  || match PyStr.int (after_last ":" (authority uri)) with
     | Some _ => false
     | None => true
     end.

(** Whether a decimal digit occurs in [s]. *)
Fixpoint has_digit (s : string) : bool :=
  match s with
  | EmptyString => false
  | String x s' => PyStr.is_digit x || has_digit s'
  end.

(** The characters of which an integer literal is made. *)
Definition int_char (x : ascii) : bool :=
  PyStr.is_space x || PyStr.is_digit x
  || Ascii.eqb x "+" || Ascii.eqb x "-" || Ascii.eqb x "_".

(** The host and port with which [validate_proxy] enters stage 1: what
    [extract_host_port] returns, when neither is [None], empty or zero. *)
Definition probed (uri : string) : option (string * Z) :=
  match extract_host_port uri with
  | Ret (Some host, Some port) =>
      if negb (str_truthy host) || (port =? 0)%Z then None
      else Some (host, port)
  | _ => None
  end.

(** ** Observing a run *)

Section Observations.

Variable N : Net.

(** [st] after [self.stats['total'] += 1]. *)
Definition counted (st : State N) : State N :=
  {| world := world st; trace := trace st;
     self_stats := incr_total (self_stats st);
     self_results := self_results st |}.

(** [st'] is [st] after some network activity: [self] is as it was and
    the trace has grown. *)
Definition frame (st st' : State N) : Prop :=
  self_stats st' = self_stats st /\
  self_results st' = self_results st /\
  exists evs, trace st' = (trace st ++ evs)%list.

(** The answers of the resolver to the names [names], asked one after
    the other from the world [w], and the world they leave. *)
Fixpoint dns_run (w : World N) (names : list string)
  : list (res string) * World N :=
  match names with
  | [] => ([], w)
  | name :: names' =>
      let '(r, w1) := net_gethostbyname N w name in
      let '(rs, w2) := dns_run w1 names' in
      (r :: rs, w2)
  end.

Definition dns_answers (w : World N) (names : list string)
  : list (res string) :=
  fst (dns_run w names).

(** The state after the queries [qs], which left the events [evs]. *)
Definition after_queries (st : State N) (qs : list string)
    (evs : list event) : State N :=
  {| world := snd (dns_run (world st) qs);
     trace := trace st ++ evs;
     self_stats := self_stats st;
     self_results := self_results st |}.

(** The network raises nothing that stage 1 does not catch. *)
Definition connect_caught : Prop :=
  forall w t host port e,
    fst (net_connect N w t host port) = Raise e -> is_OSError e = true.

End Observations.

Arguments counted {N} st.
Arguments frame {N} st st'.
Arguments dns_run {N} w names.
Arguments dns_answers {N} w names.
Arguments after_queries {N} st qs evs.

(** The name resolved. *)
Definition resolved (r : res string) : bool :=
  match r with
  | Ret _ => true
  | Raise _ => false
  end.

(** The name resolved, or the lookup failed with [socket.gaierror]. *)
Definition settled (r : res string) : bool :=
  match r with
  | Ret _ => true
  | Raise e => is_gaierror e
  end.

Definition dnsbl_status (r : res string) : string :=
  if resolved r then "LISTED" else "OK".

(** The dictionary [checks] after the services [hosts] gave [answers]. *)
Fixpoint record_checks (c : gmap string string) (hosts : list string)
    (answers : list (res string)) : gmap string string :=
  match hosts, answers with
  | h :: hosts', a :: answers' =>
      record_checks (<[h := dnsbl_status a]> c) hosts' answers'
  | _, _ => c
  end.

(** The query names of stage 3 for [ip_address]. *)
Definition dnsbl_queries (ip_address : string) : list string :=
  map (fun dnsbl => reversed_ip ip_address ++ "." ++ dnsbl) dnsbl_hosts.

(** ** A network for the examples

    [proxy.example.com] is 203.0.113.5 and listens on port 443; the address
    is listed on zen.spamhaus.org and on no other service. *)

Definition example_net : Net :=
  table_net
    [("proxy.example.com", "203.0.113.5");
     ("5.113.0.203.zen.spamhaus.org", "127.0.0.2")]
    [("203.0.113.5", 443)].

Definition example_state : State example_net := init example_net tt.

(** A proxy that is reachable and blacklisted, one whose port is closed,
    and a line that is no URI at all. *)
Definition listed_uri : string :=
  "vless://uuid@proxy.example.com:443?security=tls#A".

Definition closed_uri : string :=
  "trojan://password@proxy.example.com:8443?security=tls#B".

Definition garbage_uri : string := "not a proxy uri".

(** The record that [validate_proxy] returns for [listed_uri] on
    [example_net]. *)
Definition listed_record : result := {|
  r_uri := listed_uri;
  r_protocol := "VLESS";
  r_valid := true;
  r_stages :=
    <["ip_reputation" :=
        StageReputation
          {| blacklisted := true;
             checks := Some (<["dnsbl.sorbs.net" := "OK"]>
                            (<["bl.spamcop.net" := "OK"]>
                            (<["zen.spamhaus.org" := "LISTED"]> ∅))) |}]>
    (<["tcp" := StageBool true]> ∅);
  r_host := Some "proxy.example.com";
  r_port := Some 443
|}.

(** ** The stages that [validate_proxy] does not call *)


(** [stage2_xray_test]: the body is [pass], the call returns [None]. *)
Definition stage2_xray_test {A : Type} (proxy_config : A) : option bool :=
  None.




(** ** More networks and a second configuration for the examples *)

(** Every connection goes through and no name resolves. *)
Definition nameless_net : Net := {|
  World := unit;
  net_connect _ _ _ _ := (Ret tt, tt);
  net_gethostbyname _ _ := (Raise socket_gaierror, tt)
|}.

(** Every connection goes through, [proxy.example.com] resolves, and every
    other lookup is interrupted from the keyboard. *)
Definition interrupted_net : Net := {|
  World := unit;
  net_connect _ _ _ _ := (Ret tt, tt);
  net_gethostbyname _ name :=
    (if String.eqb name "proxy.example.com" then Ret "203.0.113.5"
     else Raise KeyboardInterrupt, tt)
|}.

(** [config.py] with the reputation stage switched off. *)
Definition config_no_reputation : Config := {|
  TCP_TIMEOUT := 3;
  ENABLE_STAGE3_IP_REPUTATION := false;
  ENABLE_STAGE4_SPEED_TEST := true;
  ENABLE_STAGE5_STABILITY := true;
  ENABLE_STAGE6_ROUTE_QUALITY := true;
  ENABLE_STAGE7_TLS_VALIDATION := true;
  IP_REPUTATION_TIMEOUT := 5;
  BLACKLIST_CACHE_TIME := 3600
|}.

(** A URI with a port that no socket takes. *)
Definition overflow_uri : string :=
  "vless://uuid@proxy.example.com:99999?security=tls".

(** The scheme prefixes that [detect_protocol] tests, with the names it
    returns for them. *)
Definition schemes : list (string * string) :=
  [("vless://", "VLESS"); ("vmess://", "VMess");
   ("trojan://", "Trojan"); ("ss://", "ShadowSocks")].

(** The state in which stage 1 leaves a validator whose probe of
    [(host, port)] went through and left the world [w]. *)
Definition after_probe (N : Net) (st : State N) (w : World N) (host : string)
    (port : Z) : State N :=
  {| world := w;
     trace := trace st ++ [EStage1 host port; EConnect host port];
     self_stats := incr_tcp_live (incr_total (self_stats st));
     self_results := self_results st |}.

(** * Theorems *)

(** ** The string primitives on examples *)

Example split_at : PyStr.split "@" "a@b@c" = ["a"; "b"; "c"].
Proof. reflexivity. Qed.
Example rsplit_colon : PyStr.rsplit_1 ":" "[::1]:443" = ["[::1]"; "443"].
Proof. reflexivity. Qed.
Example int_plain : PyStr.int "443" = Some 443.
Proof. reflexivity. Qed.
Example int_fragment : PyStr.int "443#Label" = None.
Proof. reflexivity. Qed.
Example int_padded : PyStr.int " +4_43 " = Some 443.
Proof. reflexivity. Qed.


(** ** [split] and [rsplit] in terms of the text around a separator *)

Lemma append_String (x : ascii) (a b : string) :
  String x a ++ b = String x (a ++ b).
Proof. reflexivity. Qed.

Lemma append_Empty (b : string) : EmptyString ++ b = b.
Proof. reflexivity. Qed.

Section Separators.

Variable c : ascii.

Lemma split_unfold (s : string) :
  PyStr.split c s =
  before_first c s ::
    (if PyStr.contains c s then PyStr.split c (after_first c s) else []).
Proof.
  induction s as [|x s IH]; simpl; [reflexivity|].
  destruct (Ascii.eqb x c); [reflexivity|].
  rewrite IH at 1. reflexivity.
Qed.

Lemma split_index_0 (s : string) :
  index (PyStr.split c s) 0 = Ret (before_first c s).
Proof. rewrite split_unfold. reflexivity. Qed.

Lemma split_index_1 (s : string) :
  PyStr.contains c s = true ->
  index (PyStr.split c s) 1 = Ret (before_first c (after_first c s)).
Proof.
  intros Hc. rewrite split_unfold, Hc.
  rewrite (split_unfold (after_first c s)). reflexivity.
Qed.

Lemma rsplit_1_absent (s : string) :
  PyStr.contains c s = false -> PyStr.rsplit_1 c s = [s].
Proof.
  induction s as [|x s IH]; simpl; [reflexivity|].
  destruct (Ascii.eqb x c); [discriminate|].
  intros Hs. rewrite (IH Hs). reflexivity.
Qed.

Lemma rsplit_1_present (s : string) :
  PyStr.contains c s = true ->
  PyStr.rsplit_1 c s = [before_last c s; after_last c s].
Proof.
  induction s as [|x s IH]; simpl; [discriminate|].
  destruct (PyStr.contains c s) eqn:Hs.
  - intros _. rewrite (IH eq_refl). reflexivity.
  - rewrite (rsplit_1_absent s Hs).
    destruct (Ascii.eqb x c); [reflexivity|discriminate].
Qed.

Lemma after_last_free (s : string) :
  PyStr.contains c (after_last c s) = false.
Proof.
  induction s as [|x s IH]; simpl; [reflexivity|].
  destruct (PyStr.contains c s) eqn:Hs; [exact IH|].
  destruct (Ascii.eqb x c) eqn:Hx; [exact Hs|].
  simpl. rewrite Hx. exact Hs.
Qed.

Lemma around_last (s : string) :
  PyStr.contains c s = true ->
  s = before_last c s ++ String c (after_last c s).
Proof.
  induction s as [|x s IH]; simpl; [discriminate|].
  destruct (PyStr.contains c s) eqn:Hs.
  - intros _. rewrite append_String. f_equal. apply IH. reflexivity.
  - destruct (Ascii.eqb x c) eqn:Hx; [|discriminate].
    intros _. apply Ascii.eqb_eq in Hx. subst x. reflexivity.
Qed.

(** A cut at a separator with none after it is the cut at the last one. *)
Lemma last_cut_unique (h t : string) :
  PyStr.contains c t = false ->
  before_last c (h ++ String c t) = h /\ after_last c (h ++ String c t) = t.
Proof.
  intros Ht. induction h as [|x h [IH1 IH2]].
  - rewrite append_Empty. simpl.
    rewrite Ht, Ascii.eqb_refl. split; reflexivity.
  - assert (Hc : PyStr.contains c (h ++ String c t) = true).
    { clear. induction h as [|y h IH].
      - rewrite append_Empty. simpl. rewrite Ascii.eqb_refl. reflexivity.
      - rewrite append_String. simpl.
        destruct (Ascii.eqb y c); [reflexivity|exact IH]. }
    rewrite append_String. simpl.
    rewrite Hc, IH1, IH2. split; reflexivity.
Qed.

End Separators.

(** ** [extract_host_port] in closed form

    The [IndexError]s of the subscripts cannot happen, and the only
    exception left, the [ValueError] of [int], is swallowed. *)

Lemma extract_host_port_spec (uri : string) :
  extract_host_port uri =
  Ret (if malformed uri then (None, None)
       else (Some (before_last ":" (authority uri)),
             PyStr.int (after_last ":" (authority uri)))).
Proof.
  unfold extract_host_port, extract_host_port_try, malformed.
  destruct (PyStr.contains "@" uri) eqn:Hat; simpl; [|reflexivity].
  rewrite (split_index_1 _ _ Hat). simpl.
  rewrite split_index_0. simpl. fold (authority uri).
  destruct (PyStr.contains ":" (authority uri)) eqn:Hcolon; simpl;
    [|reflexivity].
  rewrite (rsplit_1_present _ _ Hcolon). simpl.
  unfold py_int.
  destruct (PyStr.int (after_last ":" (authority uri))); reflexivity.
Qed.

(** ** What [int] accepts *)

Lemma lstrip_chars (x : ascii) (s : string) :
  PyStr.contains x s = true ->
  PyStr.is_space x = true \/ PyStr.contains x (PyStr.lstrip s) = true.
Proof.
  induction s as [|y s IH]; simpl; [discriminate|].
  destruct (Ascii.eqb y x) eqn:Hy.
  - apply Ascii.eqb_eq in Hy. subst y. intros _.
    destruct (PyStr.is_space x) eqn:Hsp; [left; reflexivity|].
    right. simpl. rewrite Ascii.eqb_refl. reflexivity.
  - intros Hx. destruct (PyStr.is_space y); [exact (IH Hx)|].
    right. simpl. rewrite Hy. exact Hx.
Qed.

Lemma all_space_chars (x : ascii) (s : string) :
  PyStr.all_space s = true -> PyStr.contains x s = true ->
  PyStr.is_space x = true.
Proof.
  induction s as [|y s IH]; simpl; [discriminate|].
  intros [Hy Hs]%andb_prop.
  destruct (Ascii.eqb y x) eqn:E.
  - apply Ascii.eqb_eq in E. subst y. intros _. exact Hy.
  - exact (IH Hs).
Qed.

Lemma scan_digits_chars (x : ascii) (s : string) :
  forall acc n p v m rest,
  PyStr.scan_digits acc n p s = Some (v, m, rest) ->
  PyStr.contains x s = true ->
  PyStr.is_digit x = true \/ x = "_"%char \/ PyStr.contains x rest = true.
Proof.
  induction s as [|y s IH]; intros acc n p v m rest; simpl; [discriminate|].
  intros Hscan Hx.
  destruct (Ascii.eqb y x) eqn:E.
  - apply Ascii.eqb_eq in E. subst y. unfold PyStr.is_digit.
    destruct (PyStr.digit_value x); [left; reflexivity|].
    destruct (Ascii.eqb x "_") eqn:Hus.
    + apply Ascii.eqb_eq in Hus. right; left; exact Hus.
    + destruct p; [discriminate|]. injection Hscan as _ _ <-.
      right; right. simpl. rewrite Ascii.eqb_refl. reflexivity.
  - destruct (PyStr.digit_value y); [exact (IH _ _ _ _ _ _ Hscan Hx)|].
    destruct (Ascii.eqb y "_").
    + destruct p; [discriminate|]. exact (IH _ _ _ _ _ _ Hscan Hx).
    + destruct p; [discriminate|]. injection Hscan as _ _ <-.
      right; right. simpl. rewrite E. exact Hx.
Qed.

Lemma unsigned_int_chars (x : ascii) (s : string) (v : Z) :
  PyStr.unsigned_int s = Some v -> PyStr.contains x s = true ->
  int_char x = true.
Proof.
  unfold PyStr.unsigned_int.
  destruct (PyStr.starts_with "_" s); [discriminate|].
  destruct (PyStr.scan_digits 0 0 false s) as [[[v' m] rest]|] eqn:Hscan;
    [|discriminate].
  destruct (m =? 0)%nat; [discriminate|].
  destruct (PyStr.all_space rest) eqn:Hsp; [|discriminate].
  intros _ Hx. unfold int_char.
  destruct (scan_digits_chars x s _ _ _ _ _ _ Hscan Hx) as [Hd|[->|Hr]].
  - rewrite Hd. apply orb_true_iff. left. apply orb_true_iff. left.
    apply orb_true_iff. left. apply orb_true_r.
  - apply orb_true_r.
  - rewrite (all_space_chars x rest Hsp Hr). reflexivity.
Qed.

(** Every character of a text that [int] accepts is white space, a digit,
    a sign or an underscore. *)
Lemma int_chars (x : ascii) (s : string) (v : Z) :
  PyStr.int s = Some v -> PyStr.contains x s = true -> int_char x = true.
Proof.
  unfold PyStr.int. intros Hint Hx.
  destruct (lstrip_chars x s Hx) as [Hsp|Hin].
  { unfold int_char. rewrite Hsp. reflexivity. }
  destruct (PyStr.lstrip s) as [|y t]; [discriminate|].
  destruct (Ascii.eqb y "+") eqn:Hplus.
  - simpl in Hin. destruct (Ascii.eqb y x) eqn:E.
    + apply Ascii.eqb_eq in E. subst y. unfold int_char. rewrite Hplus.
      rewrite !orb_true_r. reflexivity.
    + exact (unsigned_int_chars x t v Hint Hin).
  - destruct (Ascii.eqb y "-") eqn:Hminus.
    + simpl in Hin. destruct (Ascii.eqb y x) eqn:E.
      * apply Ascii.eqb_eq in E. subst y. unfold int_char. rewrite Hminus.
        rewrite !orb_true_r. reflexivity.
      * destruct (PyStr.unsigned_int t) as [u|] eqn:Hu; [|discriminate].
        exact (unsigned_int_chars x t u Hu Hin).
    + exact (unsigned_int_chars x _ v Hint Hin).
Qed.

Lemma int_rejects_char (x : ascii) (s : string) :
  int_char x = false -> PyStr.contains x s = true -> PyStr.int s = None.
Proof.
  intros Hx Hin. destruct (PyStr.int s) as [v|] eqn:Hint; [|reflexivity].
  rewrite (int_chars x s v Hint Hin) in Hx. discriminate.
Qed.

Lemma has_digit_lstrip (s : string) :
  has_digit s = false -> has_digit (PyStr.lstrip s) = false.
Proof.
  induction s as [|x s IH]; simpl; [reflexivity|].
  intros [Hx Hs]%orb_false_elim.
  destruct (PyStr.is_space x); [exact (IH Hs)|].
  simpl. rewrite Hx. exact Hs.
Qed.

Lemma scan_digits_no_digit (s : string) :
  has_digit s = false ->
  forall acc n p v m rest,
  PyStr.scan_digits acc n p s = Some (v, m, rest) -> m = n.
Proof.
  induction s as [|x s IH]; simpl; intros Hd acc n p v m rest.
  - destruct p; [discriminate|]. intros [= _ <- _]. reflexivity.
  - apply orb_false_elim in Hd as [Hx Hs]. unfold PyStr.is_digit in Hx.
    destruct (PyStr.digit_value x); [discriminate|].
    destruct (Ascii.eqb x "_").
    + destruct p; [discriminate|]. apply (IH Hs).
    + destruct p; [discriminate|]. intros [= _ <- _]. reflexivity.
Qed.

Lemma unsigned_int_no_digit (s : string) :
  has_digit s = false -> PyStr.unsigned_int s = None.
Proof.
  intros Hd. unfold PyStr.unsigned_int.
  destruct (PyStr.starts_with "_" s); [reflexivity|].
  destruct (PyStr.scan_digits 0 0 false s) as [[[v m] rest]|] eqn:Hscan;
    [|reflexivity].
  rewrite (scan_digits_no_digit s Hd _ _ _ _ _ _ Hscan). reflexivity.
Qed.

(** A text without a digit is no integer. *)
Lemma int_needs_digit (s : string) :
  has_digit s = false -> PyStr.int s = None.
Proof.
  intros Hd%has_digit_lstrip. unfold PyStr.int.
  destruct (PyStr.lstrip s) as [|x t]; [reflexivity|].
  assert (Ht : has_digit t = false).
  { simpl in Hd. apply orb_false_elim in Hd as [_ Ht]. exact Ht. }
  destruct (Ascii.eqb x "+"); [exact (unsigned_int_no_digit t Ht)|].
  destruct (Ascii.eqb x "-"); [|exact (unsigned_int_no_digit _ Hd)].
  rewrite (unsigned_int_no_digit t Ht). reflexivity.
Qed.

(** ** The pipeline, stage by stage *)

Section Pipeline.

Variable N : Net.
Variable cfg : Config.

Lemma frame_refl (st : State N) : frame st st.
Proof. repeat split. exists []. symmetry. apply app_nil_r. Qed.

Lemma frame_trans (a b c : State N) : frame a b -> frame b c -> frame a c.
Proof.
  intros (? & ? & e1 & H1) (? & ? & e2 & H2).
  repeat split; try congruence.
  exists (e1 ++ e2)%list. rewrite H2, H1. symmetry. apply app_assoc.
Qed.

Lemma frame_event (w : World N) (e : event) (st : State N) :
  frame st (with_world N w e st).
Proof. repeat split. exists [e]. reflexivity. Qed.

Lemma for_each_frame {A B} (l : list A) (body : A -> B -> M (State N) B) :
  (forall x acc st r st', body x acc st = (r, st') -> frame st st') ->
  forall acc st r st', for_each l body acc st = (r, st') -> frame st st'.
Proof.
  intros Hbody. induction l as [|x l IH]; intros acc st r st'; simpl.
  - unfold ret. intros [= _ <-]. apply frame_refl.
  - unfold bind. destruct (body x acc st) as [[b|e] st1] eqn:Hb.
    + intros Hl. eapply frame_trans; [eapply Hbody, Hb|eapply IH, Hl].
    + intros [= _ <-]. eapply Hbody, Hb.
Qed.

(** *** Stage 1 *)

Lemma stage1_tcp_check_eq (host : string) (port : Z) (st : State N) :
  stage1_tcp_check N cfg host port st =
  let '(r, w) := net_connect N (world st) (TCP_TIMEOUT cfg) host port in
  let st' := {| world := w;
                trace := trace st ++ [EStage1 host port; EConnect host port];
                self_stats := self_stats st;
                self_results := self_results st |} in
  match r with
  | Ret _ => (Ret true, st')
  | Raise e => if is_OSError e then (Ret false, st') else (Raise e, st')
  end.
Proof.
  unfold stage1_tcp_check, bind, emit, modify, try_except, sock_connect,
    with_world, ret. simpl.
  destruct (net_connect N (world st) (TCP_TIMEOUT cfg) host port)
    as [[[]|e] w]; simpl; rewrite <- app_assoc; [reflexivity|].
  destruct (is_OSError e); reflexivity.
Qed.

(** The answer of stage 1 hangs on the world alone. *)
Lemma stage1_tcp_check_world (host : string) (port : Z) (st st0 : State N) :
  world st0 = world st ->
  fst (stage1_tcp_check N cfg host port st0) =
  fst (stage1_tcp_check N cfg host port st).
Proof.
  intros Hw. rewrite !stage1_tcp_check_eq, Hw.
  destruct (net_connect N (world st) (TCP_TIMEOUT cfg) host port)
    as [[[]|e] w]; simpl; [reflexivity|].
  destruct (is_OSError e); reflexivity.
Qed.

Lemma stage1_tcp_check_trace (host : string) (port : Z) (st : State N) :
  let st' := snd (stage1_tcp_check N cfg host port st) in
  trace st' = (trace st ++ [EStage1 host port; EConnect host port])%list /\
  self_stats st' = self_stats st /\ self_results st' = self_results st.
Proof.
  rewrite stage1_tcp_check_eq.
  destruct (net_connect N (world st) (TCP_TIMEOUT cfg) host port)
    as [[[]|e] w]; simpl; [repeat split|].
  destruct (is_OSError e); repeat split.
Qed.

(** *** Stage 3 *)

Lemma dnsbl_check_eq (reversed dnsbl : string)
    (acc : bool * gmap string string) (st : State N) :
  dnsbl_check N reversed dnsbl acc st =
  let '(r, w) := net_gethostbyname N (world st) (reversed ++ "." ++ dnsbl) in
  let st' := with_world N w (EResolve (reversed ++ "." ++ dnsbl)) st in
  match r with
  | Ret _ => (Ret (true, <[dnsbl := "LISTED"]> (snd acc)), st')
  | Raise e =>
      if is_gaierror e
      then (Ret (fst acc, <[dnsbl := "OK"]> (snd acc)), st')
      else (Raise e, st')
  end.
Proof.
  unfold dnsbl_check, bind, ret, try_except, gethostbyname.
  destruct (net_gethostbyname N (world st) (reversed ++ "." ++ dnsbl))
    as [[ip|e] w]; [reflexivity|].
  destruct (is_gaierror e); reflexivity.
Qed.

Lemma dnsbl_check_frame reversed dnsbl acc (st : State N) r st' :
  dnsbl_check N reversed dnsbl acc st = (r, st') -> frame st st'.
Proof.
  rewrite dnsbl_check_eq.
  destruct (net_gethostbyname N (world st) _) as [[ip|e] w]; simpl.
  - intros [= _ <-]. apply frame_event.
  - destruct (is_gaierror e); intros [= _ <-]; apply frame_event.
Qed.

Lemma stage3_frame (ip : string) (st : State N) r st' :
  stage3_ip_reputation N cfg ip st = (r, st') -> frame st st'.
Proof.
  unfold stage3_ip_reputation. unfold bind at 1. unfold emit, modify.
  set (st0 := {| world := world st; trace := trace st ++ [EStage3 ip];
                 self_stats := self_stats st;
                 self_results := self_results st |}).
  assert (H0 : frame st st0)
    by (repeat split; exists [EStage3 ip]; reflexivity).
  destruct (negb _).
  - unfold ret. intros [= _ <-]. exact H0.
  - unfold bind.
    destruct (for_each _ _ _ _) as [[[b c]|e] st1] eqn:Hloop;
      apply for_each_frame in Hloop; try apply dnsbl_check_frame;
      unfold ret; intros [= _ <-]; eapply frame_trans; eassumption.
Qed.

(** The loop of stage 3 when every lookup resolves or fails with
    [socket.gaierror]. *)
Lemma dnsbl_loop (reversed : string) (hosts : list string) :
  forall acc (st : State N),
  let qs := map (fun svc => reversed ++ "." ++ svc) hosts in
  let answers := dns_answers (world st) qs in
  forallb settled answers = true ->
  for_each hosts (dnsbl_check N reversed) acc st =
  (Ret (fst acc || existsb resolved answers,
        record_checks (snd acc) hosts answers),
   after_queries st qs (map EResolve qs)).
Proof.
  unfold dns_answers.
  induction hosts as [|h hosts IH]; intros [b c] st; simpl.
  - intros _. unfold ret, after_queries. simpl.
    rewrite orb_false_r, app_nil_r. destruct st; reflexivity.
  - unfold bind. rewrite dnsbl_check_eq.
    destruct (net_gethostbyname N (world st) (reversed ++ "." ++ h))
      as [r w1] eqn:Hq.
    specialize (IH (if resolved r then true else b,
                    <[h := dnsbl_status r]> c)
                   (with_world N w1 (EResolve (reversed ++ "." ++ h)) st)).
    simpl in IH.
    destruct (dns_run w1 _) as [rs w2] eqn:Hrun. simpl in *.
    intros [Hr Hrs]%andb_prop.
    destruct r as [ip|e]; simpl in *.
    + refine (eq_trans (IH Hrs) _). unfold after_queries. simpl.
      rewrite Hq, Hrun, orb_true_r, <- app_assoc. reflexivity.
    + rewrite Hr. refine (eq_trans (IH Hrs) _). unfold after_queries. simpl.
      rewrite Hq, Hrun, <- app_assoc. reflexivity.
Qed.

Lemma stage3_settled (ip : string) (st : State N) :
  ENABLE_STAGE3_IP_REPUTATION cfg = true ->
  let qs := dnsbl_queries ip in
  let answers := dns_answers (world st) qs in
  forallb settled answers = true ->
  stage3_ip_reputation N cfg ip st =
  (Ret {| blacklisted := existsb resolved answers;
          checks := Some (record_checks ∅ dnsbl_hosts answers) |},
   after_queries st qs (EStage3 ip :: map EResolve qs)).
Proof.
  intros Hen qs answers Hs.
  unfold stage3_ip_reputation. unfold bind at 1. unfold emit, modify.
  rewrite Hen. unfold bind. cbn beta iota delta [negb].
  rewrite (dnsbl_loop (reversed_ip ip) dnsbl_hosts); [|exact Hs].
  unfold ret, after_queries. simpl. rewrite <- app_assoc. reflexivity.
Qed.

(** With the flag off, stage 3 asks nothing and reports a clean address. *)
Lemma stage3_disabled (ip : string) (st : State N) :
  ENABLE_STAGE3_IP_REPUTATION cfg = false ->
  stage3_ip_reputation N cfg ip st =
  (Ret {| blacklisted := false; checks := None |},
   after_queries st [] [EStage3 ip]).
Proof.
  intros Hoff. unfold stage3_ip_reputation, bind, emit, modify.
  rewrite Hoff. reflexivity.
Qed.

(** The [try] block around stage 3 in [validate_proxy] never raises: it
    adds the reputation to the record or leaves the record as it was. *)
Lemma reputation_block_inv (host : string) (res0 : result)
    (st : State N) r st' :
  try_except
    (let* ip := gethostbyname N host in
     let* rep := stage3_ip_reputation N cfg ip in
     ret (set_ip_reputation rep res0))
    any_exception
    (ret res0) st = (r, st') ->
  frame st st' /\
  (r = Ret res0 \/ exists rep, r = Ret (set_ip_reputation rep res0)).
Proof.
  unfold try_except, bind at 1. unfold gethostbyname at 1.
  destruct (net_gethostbyname N (world st) host) as [[ip|e] w]; simpl.
  - unfold bind.
    destruct (stage3_ip_reputation N cfg ip _) as [[rep|e] st1] eqn:H3;
      apply stage3_frame in H3; unfold ret; intros [= <- <-];
      (split; [eapply frame_trans; [apply frame_event|exact H3]|]); eauto.
  - unfold ret. intros [= <- <-]. split; [apply frame_event|]. eauto.
Qed.

(** *** [validate_proxy] *)

Lemma validate_proxy_not_probed (uri : string) (st : State N) :
  probed uri = None ->
  validate_proxy N cfg uri st = (Ret (new_result uri), counted st).
Proof.
  unfold probed, validate_proxy. unfold bind at 1.
  unfold update_stats, modify. unfold bind at 1. unfold lift.
  rewrite extract_host_port_spec.
  destruct (if malformed uri then _ else _) as [[host|] [port|]];
    intros Hp; try reflexivity.
  destruct (negb _ || _); [reflexivity|discriminate].
Qed.

Lemma validate_proxy_probed (uri host : string) (port : Z) (st : State N) :
  probed uri = Some (host, port) ->
  validate_proxy N cfg uri st =
  (let* live := stage1_tcp_check N cfg host port in
   if live then
     update_stats N incr_tcp_live;;
     let* res :=
       try_except
         (let* ip := gethostbyname N host in
          let* rep := stage3_ip_reputation N cfg ip in
          ret (set_ip_reputation rep (set_tcp host port (new_result uri))))
         any_exception
         (ret (set_tcp host port (new_result uri))) in
     ret (set_valid res)
   else ret (new_result uri)) (counted st).
Proof.
  unfold probed, validate_proxy. unfold bind at 1.
  unfold update_stats at 1, modify. unfold bind at 1. unfold lift.
  rewrite extract_host_port_spec.
  destruct (if malformed uri then _ else _) as [[h|] [p|]];
    try discriminate.
  destruct (negb _ || _); [discriminate|].
  intros [= <- <-]. reflexivity.
Qed.

(** Every way in which [validate_proxy] returns a record. *)
Lemma validate_proxy_returns (uri : string) (st : State N) r st' :
  validate_proxy N cfg uri st = (Ret r, st') ->
  (r = new_result uri /\
   self_stats st' = incr_total (self_stats st) /\
   self_results st' = self_results st /\
   (trace st' = trace st \/
    exists host port,
      trace st' =
      (trace st ++ [EStage1 host port; EConnect host port])%list))
  \/
  (exists host port,
     (r = set_valid (set_tcp host port (new_result uri)) \/
      exists rep,
        r = set_valid
              (set_ip_reputation rep (set_tcp host port (new_result uri))))
     /\ self_stats st' = incr_tcp_live (incr_total (self_stats st))
     /\ self_results st' = self_results st
     /\ exists evs,
          trace st' =
          (trace st ++ EStage1 host port :: EConnect host port :: evs)%list).
Proof.
  destruct (probed uri) as [[host port]|] eqn:Hp.
  - rewrite (validate_proxy_probed _ _ _ _ Hp). unfold bind at 1.
    pose proof (stage1_tcp_check_trace host port (counted st))
      as (Ht & Hs & Hr).
    destruct (stage1_tcp_check N cfg host port (counted st))
      as [[[|]|e] st1]; simpl in Ht, Hs, Hr; [| |discriminate].
    + unfold bind at 1. unfold update_stats, modify.
      unfold bind.
      match goal with
      | |- (let (_, _) := ?blk ?s in _) = _ -> _ =>
          destruct (blk s) as [r3 st3] eqn:Hblk
      end.
      apply reputation_block_inv in Hblk
        as [(Hs3 & Hr3 & evs & Ht3) Hcases].
      simpl in Hs3, Hr3, Ht3.
      intros Hret. right. exists host, port.
      assert (Hst : st3 = st' /\
                    (r3 = Ret (set_tcp host port (new_result uri)) /\
                     r = set_valid (set_tcp host port (new_result uri)) \/
                     exists rep,
                       r = set_valid (set_ip_reputation rep
                             (set_tcp host port (new_result uri))))).
      { destruct Hcases as [->|[rep ->]]; unfold ret in Hret;
          injection Hret as <- <-; split; eauto. }
      destruct Hst as [<- Hr']. split; [tauto|].
      split; [rewrite Hs3, Hs; reflexivity|].
      split; [rewrite Hr3, Hr; reflexivity|].
      exists evs. rewrite Ht3, Ht. simpl. rewrite <- app_assoc. reflexivity.
    + unfold ret. intros [= <- <-]. left.
      repeat split; [exact Hs|exact Hr|]. right. exists host, port. exact Ht.
  - rewrite (validate_proxy_not_probed _ _ Hp). intros [= <- <-]. left.
    repeat split. left. reflexivity.
Qed.


End Pipeline.

(** ** Reversing the octets *)

Lemma split_absent (c : ascii) (s : string) :
  PyStr.contains c s = false -> PyStr.split c s = [s].
Proof.
  induction s as [|x s IH]; simpl; [reflexivity|].
  destruct (Ascii.eqb x c); [discriminate|].
  intros Hs. rewrite (IH Hs). reflexivity.
Qed.

Lemma split_at_sep (c : ascii) (x rest : string) :
  PyStr.contains c x = false ->
  PyStr.split c (x ++ String c EmptyString ++ rest) = x :: PyStr.split c rest.
Proof.
  change (String c EmptyString ++ rest) with (String c rest).
  induction x as [|y x IH].
  - intros _. rewrite append_Empty. simpl. rewrite Ascii.eqb_refl. reflexivity.
  - rewrite append_String. simpl.
    destruct (Ascii.eqb y c); [discriminate|].
    intros Hx. rewrite (IH Hx). reflexivity.
Qed.

(** On a dotted quad, [reversed_ip] is the quad with its octets in the
    opposite order. *)
Lemma reversed_ip_quad (a b c d : string) :
  PyStr.contains "." a = false -> PyStr.contains "." b = false ->
  PyStr.contains "." c = false -> PyStr.contains "." d = false ->
  reversed_ip (a ++ "." ++ b ++ "." ++ c ++ "." ++ d) =
  d ++ "." ++ c ++ "." ++ b ++ "." ++ a.
Proof.
  intros Ha Hb Hc Hd. unfold reversed_ip.
  rewrite (split_at_sep _ _ _ Ha), (split_at_sep _ _ _ Hb),
    (split_at_sep _ _ _ Hc), (split_absent _ _ Hd).
  reflexivity.
Qed.

Lemma dns_run_app (N : Net) (l1 l2 : list string) :
  forall w : World N,
  dns_run w (l1 ++ l2) =
  (fst (dns_run w l1) ++ fst (dns_run (snd (dns_run w l1)) l2),
   snd (dns_run (snd (dns_run w l1)) l2))%list.
Proof.
  induction l1 as [|n l1 IH]; intros w; simpl.
  - destruct (dns_run w l2); reflexivity.
  - destruct (net_gethostbyname N w n) as [r w1]. rewrite IH.
    destruct (dns_run w1 l1) as [rs w2]. reflexivity.
Qed.

Lemma probed_spec (uri host : string) (port : Z) :
  extract_host_port uri = Ret (Some host, Some port) ->
  str_truthy host = true -> port <> 0 ->
  probed uri = Some (host, port).
Proof.
  intros He Hh Hp. unfold probed. rewrite He, Hh.
  destruct (Z.eqb_spec port 0); [contradiction|reflexivity].
Qed.

Lemma malformed_cases (uri : string) :
  PyStr.contains "@" uri = false \/
  PyStr.contains ":" (authority uri) = false \/
  PyStr.int (after_last ":" (authority uri)) = None ->
  malformed uri = true.
Proof.
  unfold malformed. intros [-> | [-> | ->]]; simpl.
  - reflexivity.
  - rewrite orb_true_r. reflexivity.
  - apply orb_true_r.
Qed.

(** * The claims *)

(** ** C1: which stage decides [valid] *)




(** ** C2: URIs that never reach a stage *)

(** C2, as the code has it: parsing does not look at the scheme.  A URI
    without [@], or without [:] in its authority, or whose text after the
    last [:] of the authority [int] refuses, yields [(None, None)]; its
    record has [valid = False], no host and no stage entry, and no stage,
    not even stage 1, was run for it. *)
Theorem malformed_uri_never_probed (N : Net) (cfg : Config) (uri : string)
    (st : State N) :
  PyStr.contains "@" uri = false \/
  PyStr.contains ":" (authority uri) = false \/
  PyStr.int (after_last ":" (authority uri)) = None ->
  extract_host_port uri = Ret (None, None) /\
  exists r st',
    validate_proxy N cfg uri st = (Ret r, st') /\
    r_valid r = false /\ r_host r = None /\ r_stages r = ∅ /\
    trace st' = trace st /\ world st' = world st.
Proof.
  intros Hm%malformed_cases.
  assert (He : extract_host_port uri = Ret (None, None))
    by (rewrite extract_host_port_spec, Hm; reflexivity).
  split; [exact He|].
  exists (new_result uri), (counted st).
  split; [|repeat split].
  apply validate_proxy_not_probed. unfold probed. rewrite He. reflexivity.
Qed.

(** The claim as written fails for the scheme: a URI of an unknown scheme
    with a well-formed authority is parsed, probed, checked for reputation
    and reported valid. *)
Lemma unknown_scheme_reaches_stage3 :
  let uri := "http://user@proxy.example.com:443" in
  let run := validate_proxy example_net config_py uri example_state in
  detect_protocol uri = "Unknown" /\
  extract_host_port uri = Ret (Some "proxy.example.com", Some 443) /\
  fst run
  = Ret {| r_uri := uri; r_protocol := "Unknown"; r_valid := true;
           r_stages := r_stages listed_record;
           r_host := Some "proxy.example.com"; r_port := Some 443 |} /\
  trace (snd run)
  = [EStage1 "proxy.example.com" 443; EConnect "proxy.example.com" 443;
     EResolve "proxy.example.com"; EStage3 "203.0.113.5";
     EResolve "5.113.0.203.zen.spamhaus.org";
     EResolve "5.113.0.203.bl.spamcop.net";
     EResolve "5.113.0.203.dnsbl.sorbs.net"].
Proof. vm_compute. repeat split; reflexivity. Qed.

Lemma malformed_uri_never_probed_witness :
  PyStr.int (after_last ":" (authority "vless://uuid@host:port?x=1")) = None /\
  extract_host_port "vless://uuid@host:port?x=1" = Ret (None, None).
Proof.
  assert (H : PyStr.int (after_last ":"
                (authority "vless://uuid@host:port?x=1")) = None)
    by reflexivity.
  split; [exact H|].
  exact (proj1 (malformed_uri_never_probed example_net config_py
                  "vless://uuid@host:port?x=1" example_state
                  (or_intror (or_intror H)))).
Defined.

(** ** C3: what a run records *)

Lemma run_validation_cons (N : Net) (cfg : Config) (uri : string)
    (proxies : list string) (st : State N) :
  run_validation N cfg (uri :: proxies) st =
  match validate_proxy N cfg uri st with
  | (Ret r, st1) =>
      run_validation N cfg proxies
        (if r_valid r
         then {| world := world st1; trace := trace st1;
                 self_stats := self_stats st1;
                 self_results := self_results st1 ++ [r] |}
         else st1)
  | (Raise e, st1) => (Raise e, st1)
  end.
Proof.
  unfold run_validation. simpl. unfold bind.
  destruct (validate_proxy N cfg uri st) as [[r|e] st1]; [|reflexivity].
  destruct (r_valid r); reflexivity.
Qed.


(** A network on which no name resolves raises nothing but
    [socket.gaierror]. *)
Lemma offline_connect_caught : connect_caught (table_net [] []).
Proof. intros w t host port e. simpl. intros [= <-]. reflexivity. Qed.

(** C3, as the code has it: a completed run appends to [self.results]
    only records with [valid = True]; their URIs are a subsequence of the
    input, so they come in input order and at most one for an input URI; a
    URI that failed parsing or stage 1 leaves no record and is only
    counted: [stats.total] grows by the length of the input and
    [stats.tcp_live] by the number of appended records. *)
Theorem run_validation_keeps_valid_only (N : Net) (cfg : Config)
    (proxies : list string) (st st' : State N) :
  run_validation N cfg proxies st = (Ret tt, st') ->
  exists new : list result,
    self_results st' = (self_results st ++ new)%list /\
    Forall (fun r => r_valid r = true) new /\
    sublist (map r_uri new) proxies /\
    total (self_stats st')
    = total (self_stats st) + Z.of_nat (length proxies) /\
    tcp_live (self_stats st')
    = tcp_live (self_stats st) + Z.of_nat (length new).
Proof.
  revert st. induction proxies as [|uri proxies IH]; intros st.
  - intros [= <-]. exists []. rewrite app_nil_r. simpl.
    repeat split; [constructor|constructor|lia|lia].
  - rewrite run_validation_cons.
    destruct (validate_proxy N cfg uri st) as [[r|e] st1] eqn:Hv;
      [|discriminate].
    apply validate_proxy_returns in Hv
      as [(-> & Hs & Hr & _) | (host & port & Hcase & Hs & Hr & _)].
    + simpl. intros (new & Hnew & Hvalid & Hsub & Htot & Hlive)%IH.
      exists new. rewrite Hnew, Hr, Htot, Hlive, Hs.
      repeat split; [exact Hvalid|constructor; exact Hsub|simpl; lia].
    + assert (Hr_valid : r_valid r = true /\ r_uri r = uri)
        by (destruct Hcase as [-> | [rep ->]]; split; reflexivity).
      destruct Hr_valid as [Hval Huri]. rewrite Hval.
      intros (new & Hnew & Hvalid & Hsub & Htot & Hlive)%IH.
      simpl in Hnew, Htot, Hlive.
      exists (r :: new). rewrite Hnew, Hr, Htot, Hlive, Hs, <- app_assoc.
      repeat split.
      * constructor; assumption.
      * simpl. rewrite Huri. constructor. exact Hsub.
      * simpl. lia.
      * simpl length. simpl. lia.
Qed.

(** The claim as written fails: of three input URIs only the one that
    passed stage 1 is in [self.results]; the other two are counted and
    dropped. *)
Lemma failed_uri_not_recorded :
  let run := run_validation example_net config_py
               [garbage_uri; listed_uri; closed_uri] example_state in
  fst run = Ret tt /\
  self_results (snd run) = [listed_record] /\
  total (self_stats (snd run)) = 3.
Proof. vm_compute. repeat split; reflexivity. Qed.

Lemma run_validation_keeps_valid_only_witness :
  let proxies := [garbage_uri; listed_uri; closed_uri] in
  let st' := snd (run_validation example_net config_py proxies
                    example_state) in
  run_validation example_net config_py proxies example_state = (Ret tt, st')
  /\ exists new : list result,
       self_results st' = (self_results example_state ++ new)%list /\
       Forall (fun r => r_valid r = true) new /\
       sublist (map r_uri new) proxies /\
       total (self_stats st')
       = total (self_stats example_state) + Z.of_nat (length proxies) /\
       tcp_live (self_stats st')
       = tcp_live (self_stats example_state) + Z.of_nat (length new).
Proof.
  intros proxies st'.
  assert (H : run_validation example_net config_py proxies example_state
              = (Ret tt, st')) by (vm_compute; reflexivity).
  split; [exact H|].
  exact (run_validation_keeps_valid_only _ _ _ _ _ H).
Defined.

(** ** C4: no reputation cache *)

(** C4 on the code: [stage3_ip_reputation] keeps nothing between calls and
    never reads [BLACKLIST_CACHE_TIME].  Two lookups of one address, one
    right after the other, put every DNSBL query on the wire twice. *)
Theorem reputation_lookup_repeats_queries (N : Net) (cfg : Config)
    (ip : string) (st : State N) :
  ENABLE_STAGE3_IP_REPUTATION cfg = true ->
  forallb settled
    (dns_answers (world st) (dnsbl_queries ip ++ dnsbl_queries ip)) = true ->
  exists rep1 st1 rep2 st2,
    stage3_ip_reputation N cfg ip st = (Ret rep1, st1) /\
    stage3_ip_reputation N cfg ip st1 = (Ret rep2, st2) /\
    trace st2 =
    (trace st ++ (EStage3 ip :: map EResolve (dnsbl_queries ip))
              ++ (EStage3 ip :: map EResolve (dnsbl_queries ip)))%list.
Proof.
  intros Hen. unfold dns_answers. rewrite dns_run_app. simpl fst.
  rewrite forallb_app. intros [H1 H2]%andb_prop.
  pose proof (stage3_settled N cfg ip st Hen H1) as E1.
  set (st1 := after_queries st (dnsbl_queries ip)
                (EStage3 ip :: map EResolve (dnsbl_queries ip))) in *.
  pose proof (stage3_settled N cfg ip st1 Hen H2) as E2.
  do 4 eexists. split; [exact E1|]. split; [exact E2|].
  simpl. rewrite <- app_assoc. reflexivity.
Qed.

Lemma reputation_lookup_repeats_queries_witness :
  ENABLE_STAGE3_IP_REPUTATION config_py = true /\
  forallb settled
    (dns_answers (world example_state)
       (dnsbl_queries "203.0.113.5" ++ dnsbl_queries "203.0.113.5")) = true /\
  exists rep1 st1 rep2 st2,
    stage3_ip_reputation example_net config_py "203.0.113.5" example_state
    = (Ret rep1, st1) /\
    stage3_ip_reputation example_net config_py "203.0.113.5" st1
    = (Ret rep2, st2) /\
    trace st2 =
    (trace example_state
       ++ (EStage3 "203.0.113.5"
             :: map EResolve (dnsbl_queries "203.0.113.5"))
       ++ (EStage3 "203.0.113.5"
             :: map EResolve (dnsbl_queries "203.0.113.5")))%list.
Proof.
  split; [reflexivity|]. split; [reflexivity|].
  apply (reputation_lookup_repeats_queries example_net config_py
           "203.0.113.5" example_state); reflexivity.
Defined.

(** ** C5: the DNSBL queries and their verdict *)

(** C5: for a dotted quad [a.b.c.d], the enabled reputation check asks, for
    each configured service and in their order, for the name
    [d.c.b.a.<service>] and for nothing else.  When each lookup either
    resolves or fails with [socket.gaierror], the check returns; a service
    whose name resolved is recorded as [LISTED], one whose lookup failed as
    [OK]; and [blacklisted] is the disjunction of the resolved lookups,
    that is, true exactly when some service is recorded as [LISTED]. *)
Theorem stage3_reversed_octet_queries (N : Net) (cfg : Config)
    (a b c d : string) (st : State N) :
  ENABLE_STAGE3_IP_REPUTATION cfg = true ->
  PyStr.contains "." a = false -> PyStr.contains "." b = false ->
  PyStr.contains "." c = false -> PyStr.contains "." d = false ->
  let ip := a ++ "." ++ b ++ "." ++ c ++ "." ++ d in
  let queries :=
    map (fun dnsbl => (d ++ "." ++ c ++ "." ++ b ++ "." ++ a) ++ "." ++ dnsbl)
        dnsbl_hosts in
  let answers := dns_answers (world st) queries in
  forallb settled answers = true ->
  exists rep chk st',
    stage3_ip_reputation N cfg ip st = (Ret rep, st') /\
    trace st' = (trace st ++ EStage3 ip :: map EResolve queries)%list /\
    checks rep = Some chk /\
    (forall i dnsbl ans,
       dnsbl_hosts !! i = Some dnsbl -> answers !! i = Some ans ->
       chk !! dnsbl = Some (if resolved ans then "LISTED" else "OK")) /\
    blacklisted rep = existsb resolved answers /\
    (blacklisted rep = true <-> exists dnsbl, chk !! dnsbl = Some "LISTED").
Proof.
  intros Hen Ha Hb Hc Hd ip queries answers Hs.
  assert (Hq : dnsbl_queries ip = queries).
  { unfold dnsbl_queries, queries, ip.
    rewrite (reversed_ip_quad a b c d Ha Hb Hc Hd). reflexivity. }
  pose proof (stage3_settled N cfg ip st Hen) as E3.
  rewrite Hq in E3. specialize (E3 Hs). fold answers in E3.
  exists {| blacklisted := existsb resolved answers;
            checks := Some (record_checks ∅ dnsbl_hosts answers) |},
         (record_checks ∅ dnsbl_hosts answers),
         (after_queries st queries (EStage3 ip :: map EResolve queries)).
  split; [exact E3|]. split; [reflexivity|]. split; [reflexivity|].
  clear E3 Hq. revert Hs. unfold answers, dns_answers, queries. simpl.
  destruct (net_gethostbyname N (world st) _) as [r1 w1].
  destruct (net_gethostbyname N w1 _) as [r2 w2].
  destruct (net_gethostbyname N w2 _) as [r3 w3]. simpl.
  intros _. split; [|split; [reflexivity|]].
  - intros [|[|[|i]]] dnsbl ans; simpl; try discriminate;
      intros [= <-] [= <-]; reflexivity.
  - unfold dnsbl_status.
    destruct r1 as [x1|e1], r2 as [x2|e2], r3 as [x3|e3]; simpl;
      (split;
       [ first [ discriminate
               | intros _;
                 first [ exists "zen.spamhaus.org"; reflexivity
                       | exists "bl.spamcop.net"; reflexivity
                       | exists "dnsbl.sorbs.net"; reflexivity ] ]
       | first [ reflexivity
               | intros [dnsbl Hl]; revert Hl;
                 repeat (rewrite lookup_insert; case_decide);
                 rewrite ?lookup_empty; discriminate ] ]).
Qed.

Lemma stage3_reversed_octet_queries_witness :
  exists rep chk st',
    stage3_ip_reputation example_net config_py
      ("203" ++ "." ++ "0" ++ "." ++ "113" ++ "." ++ "5") example_state
    = (Ret rep, st') /\
    trace st'
    = [EStage3 "203.0.113.5";
       EResolve "5.113.0.203.zen.spamhaus.org";
       EResolve "5.113.0.203.bl.spamcop.net";
       EResolve "5.113.0.203.dnsbl.sorbs.net"] /\
    checks rep = Some chk /\ blacklisted rep = true.
Proof.
  destruct (stage3_reversed_octet_queries example_net config_py
              "203" "0" "113" "5" example_state
              eq_refl eq_refl eq_refl eq_refl eq_refl eq_refl)
    as (rep & chk & st' & Hrun & Htrace & Hchk & _ & Hbl & _).
  exists rep, chk, st'.
  split; [exact Hrun|]. split; [exact Htrace|]. split; [exact Hchk|].
  exact Hbl.
Defined.

(** ** C6: a failed TCP probe ends the pipeline *)

(** C6: when the proxy reaches stage 1 and the TCP probe fails,
    [validate_proxy] returns a record with [valid = False] in which no
    stage outcome, let alone a passed one, is recorded, and after the
    connection attempt of stage 1 nothing more is run. *)
Theorem tcp_failure_ends_pipeline (N : Net) (cfg : Config) (uri host : string)
    (port : Z) (st : State N) :
  extract_host_port uri = Ret (Some host, Some port) ->
  str_truthy host = true -> port <> 0 ->
  fst (stage1_tcp_check N cfg host port st) = Ret false ->
  exists r st',
    validate_proxy N cfg uri st = (Ret r, st') /\
    r_valid r = false /\
    r_stages r = ∅ /\
    (forall k v, r_stages r !! k = Some v -> v <> StageBool true) /\
    trace st' = (trace st ++ [EStage1 host port; EConnect host port])%list.
Proof.
  intros He Hh Hp Hdead.
  pose proof (probed_spec uri host port He Hh Hp) as Hprobed.
  rewrite <- (stage1_tcp_check_world N cfg host port st (counted st) eq_refl)
    in Hdead.
  pose proof (stage1_tcp_check_trace N cfg host port (counted st))
    as (Ht & _ & _).
  destruct (stage1_tcp_check N cfg host port (counted st)) as [r1 st1] eqn:H1.
  simpl in Hdead, Ht. subst r1.
  exists (new_result uri), st1.
  split.
  { rewrite (validate_proxy_probed N cfg uri host port st Hprobed).
    unfold bind at 1. rewrite H1. reflexivity. }
  split; [reflexivity|]. split; [reflexivity|].
  split; [|exact Ht].
  intros k v. simpl. rewrite lookup_empty. discriminate.
Qed.

Lemma tcp_failure_ends_pipeline_witness :
  extract_host_port closed_uri = Ret (Some "proxy.example.com", Some 8443) /\
  fst (stage1_tcp_check example_net config_py "proxy.example.com" 8443
         example_state) = Ret false /\
  exists r st',
    validate_proxy example_net config_py closed_uri example_state
    = (Ret r, st') /\
    r_valid r = false /\
    r_stages r = ∅ /\
    (forall k v, r_stages r !! k = Some v -> v <> StageBool true) /\
    trace st'
    = (trace example_state
         ++ [EStage1 "proxy.example.com" 8443;
             EConnect "proxy.example.com" 8443])%list.
Proof.
  split; [reflexivity|]. split; [reflexivity|].
  apply (tcp_failure_ends_pipeline example_net config_py closed_uri
           "proxy.example.com" 8443 example_state);
    [reflexivity|reflexivity|lia|reflexivity].
Defined.

(** ** C7: the port is taken as [int] reads it *)

(** C7, as the code has it: [extract_host_port] checks no range.  Whatever
    integer [int] reads after the last [:] of the authority is returned as
    the port.  [validate_proxy] stops before stage 1 when the host is empty
    or the port is 0, and enters stage 1 with every other port, also one
    outside 1..65535. *)
Theorem port_range_not_checked (N : Net) (cfg : Config) (uri : string)
    (port : Z) (st : State N) :
  PyStr.contains "@" uri = true ->
  PyStr.contains ":" (authority uri) = true ->
  PyStr.int (after_last ":" (authority uri)) = Some port ->
  let host := before_last ":" (authority uri) in
  extract_host_port uri = Ret (Some host, Some port) /\
  (str_truthy host = false \/ port = 0 ->
   validate_proxy N cfg uri st = (Ret (new_result uri), counted st)) /\
  (str_truthy host = true -> port <> 0 ->
   exists evs,
     trace (snd (validate_proxy N cfg uri st))
     = (trace st ++ EStage1 host port :: EConnect host port :: evs)%list).
Proof.
  intros Hat Hcolon Hint host.
  assert (He : extract_host_port uri = Ret (Some host, Some port)).
  { rewrite extract_host_port_spec. unfold malformed.
    rewrite Hat, Hcolon, Hint. reflexivity. }
  split; [exact He|]. split.
  - intros Hfalsy. apply validate_proxy_not_probed. unfold probed.
    rewrite He. destruct Hfalsy as [-> | ->]; [reflexivity|].
    rewrite orb_true_r. reflexivity.
  - intros Hh Hp.
    pose proof (probed_spec uri host port He Hh Hp) as Hprobed.
    rewrite (validate_proxy_probed N cfg uri host port st Hprobed).
    unfold bind at 1.
    pose proof (stage1_tcp_check_trace N cfg host port (counted st))
      as (Ht & _ & _).
    destruct (stage1_tcp_check N cfg host port (counted st))
      as [[[|]|e] st1]; simpl in Ht.
    + unfold bind at 1. unfold update_stats, modify. unfold bind.
      match goal with
      | |- context [let (_, _) := ?blk ?s in _] =>
          destruct (blk s) as [r3 st3] eqn:Hblk
      end.
      apply reputation_block_inv in Hblk as [(_ & _ & evs & Ht3) Hcases].
      simpl in Ht3. exists evs.
      destruct Hcases as [-> | [rep ->]]; simpl; rewrite Ht3, Ht;
        rewrite <- app_assoc; reflexivity.
    + exists []. exact Ht.
    + exists []. exact Ht.
Qed.

(** The claim as written fails: port 99999 is extracted as it stands and
    stage 1 is entered with it. *)
Lemma port_99999_enters_stage1 :
  let uri := "vless://uuid@proxy.example.com:99999?security=tls" in
  extract_host_port uri = Ret (Some "proxy.example.com", Some 99999) /\
  trace (snd (validate_proxy example_net config_py uri example_state))
  = [EStage1 "proxy.example.com" 99999; EConnect "proxy.example.com" 99999].
Proof. vm_compute. split; reflexivity. Qed.

Lemma port_range_not_checked_witness :
  let uri := "vless://uuid@proxy.example.com:99999?security=tls" in
  PyStr.int (after_last ":" (authority uri)) = Some 99999 /\
  extract_host_port uri = Ret (Some "proxy.example.com", Some 99999).
Proof.
  intros uri. split; [reflexivity|].
  exact (proj1 (port_range_not_checked example_net config_py uri 99999
                  example_state eq_refl eq_refl eq_refl)).
Defined.

(** ** C8: a fragment without a query *)

(** A [#] left in the text after the last [:] of the authority makes [int]
    fail, and with it the extraction. *)
Lemma fragment_in_port_text (uri : string) :
  PyStr.contains "#" (after_last ":" (authority uri)) = true ->
  extract_host_port uri = Ret (None, None).
Proof.
  intros Hfrag. rewrite extract_host_port_spec.
  assert (Hm : malformed uri = true).
  { apply malformed_cases. right; right.
    exact (int_rejects_char "#" _ eq_refl Hfrag). }
  rewrite Hm. reflexivity.
Qed.

(** C8 on the code: the authority is cut at the first [?] only.  A URI
    with a [#] fragment and no [?] keeps the fragment in its port text and
    is not parsed; the same URI with a [?] before the [#] is. *)
Theorem fragment_without_query_not_parsed :
  extract_host_port "scheme://cred@host:443#Label" = Ret (None, None) /\
  extract_host_port "trojan://password@proxy.example.com:443#Example2"
  = Ret (None, None) /\
  authority "scheme://cred@host:443#Label" = "host:443#Label" /\
  extract_host_port "scheme://cred@host:443?a=b#Label"
  = Ret (Some "host", Some 443).
Proof. repeat split; reflexivity. Qed.

(** ** C9: the TLS stage *)

(** C9: with the stage enabled [stage7_tls_validation] answers
    [valid = False] and an error for every argument; with the stage
    disabled it answers [valid = True]; so the verdict is the negation of
    the flag and an enabled stage never reports a valid proxy. *)
Theorem stage7_enabled_never_valid (A : Type) (cfg : Config)
    (proxy_config : A) :
  (ENABLE_STAGE7_TLS_VALIDATION cfg = true ->
   stage7_tls_validation cfg proxy_config
   = {| tls_valid := false;
        tls_error := Some "TLS validation not implemented" |}) /\
  (ENABLE_STAGE7_TLS_VALIDATION cfg = false ->
   stage7_tls_validation cfg proxy_config
   = {| tls_valid := true; tls_error := None |}) /\
  tls_valid (stage7_tls_validation cfg proxy_config)
  = negb (ENABLE_STAGE7_TLS_VALIDATION cfg).
Proof.
  unfold stage7_tls_validation.
  destruct (ENABLE_STAGE7_TLS_VALIDATION cfg); simpl;
    repeat split; intros; solve [reflexivity | discriminate].
Qed.

Lemma stage7_enabled_never_valid_witness :
  ENABLE_STAGE7_TLS_VALIDATION config_py = true /\
  stage7_tls_validation config_py listed_uri
  = {| tls_valid := false;
       tls_error := Some "TLS validation not implemented" |}.
Proof.
  split; [reflexivity|].
  exact (proj1 (stage7_enabled_never_valid string config_py listed_uri)
           eq_refl).
Defined.

(** ** C10: [extract_host_port] never raises *)

(** C10, as the code has it: [extract_host_port] returns for every string
    and raises for none.  It returns either [(None, None)] or a host and a
    port, where the host is the text of the authority before its last [:],
    which may be empty, and the port is the integer that [int] reads in the
    text after it.  A string without [@], a port text that [int] refuses,
    and so a port text without a digit, yield [(None, None)]. *)
Theorem extract_host_port_total (uri : string) :
  exists host port,
    extract_host_port uri = Ret (host, port) /\
    ((host = None /\ port = None) \/
     (exists h t n,
        host = Some h /\ port = Some n /\
        authority uri = h ++ ":" ++ t /\
        PyStr.contains ":" t = false /\ PyStr.int t = Some n)) /\
    (PyStr.contains "@" uri = false -> host = None /\ port = None) /\
    (PyStr.int (after_last ":" (authority uri)) = None ->
     host = None /\ port = None) /\
    (has_digit (after_last ":" (authority uri)) = false ->
     host = None /\ port = None).
Proof.
  rewrite extract_host_port_spec.
  assert (Hnone : PyStr.int (after_last ":" (authority uri)) = None ->
                  malformed uri = true)
    by (intros H; apply malformed_cases; tauto).
  destruct (malformed uri) eqn:Hm.
  - exists None, None. split; [reflexivity|]. tauto.
  - unfold malformed in Hm.
    apply orb_false_elim in Hm as [Hm Hint].
    apply orb_false_elim in Hm as [Hat Hcolon].
    apply negb_false_iff in Hat, Hcolon.
    destruct (PyStr.int (after_last ":" (authority uri))) as [n|] eqn:Hn;
      [|discriminate].
    eexists _, _. split; [reflexivity|]. split; [right|].
    + exists (before_last ":" (authority uri)),
        (after_last ":" (authority uri)), n.
      split; [reflexivity|]. split; [reflexivity|].
      split; [exact (around_last ":" _ Hcolon)|].
      split; [apply after_last_free|exact Hn].
    + split; [rewrite Hat; discriminate|].
      split; [discriminate|].
      intros Hd%int_needs_digit. rewrite Hd in Hn. discriminate.
Qed.

(** The claim as written fails for the host: it can be the empty string. *)
Lemma empty_host_extracted :
  extract_host_port "vless://uuid@:443" = Ret (Some EmptyString, Some 443).
Proof. reflexivity. Qed.

(** * Beyond the claims *)

(** ** Cutting a URI that was put together *)

Section Cuts.

Variable c : ascii.

Lemma contains_app (a b : string) :
  PyStr.contains c (a ++ b) = PyStr.contains c a || PyStr.contains c b.
Proof.
  induction a as [|x a IH]; [reflexivity|].
  rewrite append_String. simpl. destruct (Ascii.eqb x c); [reflexivity|].
  exact IH.
Qed.

Lemma before_first_absent (s : string) :
  PyStr.contains c s = false -> before_first c s = s.
Proof.
  induction s as [|x s IH]; simpl; [reflexivity|].
  destruct (Ascii.eqb x c); [discriminate|].
  intros Hs. rewrite (IH Hs). reflexivity.
Qed.

Lemma before_first_cut (a rest : string) :
  PyStr.contains c a = false ->
  before_first c (a ++ String c EmptyString ++ rest) = a.
Proof.
  change (String c EmptyString ++ rest) with (String c rest).
  induction a as [|x a IH].
  - intros _. rewrite append_Empty. simpl. rewrite Ascii.eqb_refl. reflexivity.
  - rewrite append_String. simpl. destruct (Ascii.eqb x c); [discriminate|].
    intros Ha. rewrite (IH Ha). reflexivity.
Qed.

Lemma after_first_cut (a rest : string) :
  PyStr.contains c a = false ->
  after_first c (a ++ String c EmptyString ++ rest) = rest.
Proof.
  change (String c EmptyString ++ rest) with (String c rest).
  induction a as [|x a IH].
  - intros _. rewrite append_Empty. simpl. rewrite Ascii.eqb_refl. reflexivity.
  - rewrite append_String. simpl. destruct (Ascii.eqb x c); [discriminate|].
    exact IH.
Qed.

Lemma before_first_free (s : string) :
  PyStr.contains c (before_first c s) = false.
Proof.
  induction s as [|x s IH]; simpl; [reflexivity|].
  destruct (Ascii.eqb x c) eqn:Hx; [reflexivity|].
  simpl. rewrite Hx. exact IH.
Qed.

(** A piece cut out of [s] has no character that [s] has not. *)
Lemma before_first_sub (d : ascii) (s : string) :
  PyStr.contains c s = false -> PyStr.contains c (before_first d s) = false.
Proof.
  induction s as [|x s IH]; simpl; [reflexivity|].
  destruct (Ascii.eqb x c) eqn:Hx; [discriminate|].
  intros Hs. destruct (Ascii.eqb x d); [reflexivity|].
  simpl. rewrite Hx. exact (IH Hs).
Qed.

Lemma before_last_sub (d : ascii) (s : string) :
  PyStr.contains c s = false -> PyStr.contains c (before_last d s) = false.
Proof.
  induction s as [|x s IH]; simpl; [reflexivity|].
  destruct (Ascii.eqb x c) eqn:Hx; [discriminate|].
  intros Hs. destruct (PyStr.contains d s); [|reflexivity].
  simpl. rewrite Hx. exact (IH Hs).
Qed.

End Cuts.

Lemma append_assoc (a b d : string) : (a ++ b) ++ d = a ++ b ++ d.
Proof.
  induction a as [|x a IH]; [reflexivity|].
  rewrite !append_String, IH. reflexivity.
Qed.

Lemma contains_String (x y : ascii) (s : string) :
  PyStr.contains x (String y s)
  = if Ascii.eqb y x then true else PyStr.contains x s.
Proof. reflexivity. Qed.

(** The authority of a URI put together from what stands before the first
    [@] and what stands after it. *)
Lemma authority_after_at (pre rest : string) :
  PyStr.contains "@" pre = false ->
  authority (pre ++ "@" ++ rest) = before_first "?" (before_first "@" rest).
Proof.
  intros Hpre. unfold authority. rewrite (after_first_cut _ _ _ Hpre).
  reflexivity.
Qed.

Lemma contains_at_after (pre rest : string) :
  PyStr.contains "@" (pre ++ "@" ++ rest) = true.
Proof.
  rewrite contains_app.
  change ("@" ++ rest) with (String "@" rest). simpl.
  apply orb_true_r.
Qed.

(** What [extract_host_port] returns hangs on the authority alone, once
    there is an [@]. *)
Lemma extract_host_port_authority (u v : string) :
  PyStr.contains "@" u = true -> PyStr.contains "@" v = true ->
  authority u = authority v ->
  extract_host_port u = extract_host_port v.
Proof.
  intros Hu Hv Ha. rewrite !extract_host_port_spec. unfold malformed.
  rewrite Hu, Hv, Ha. reflexivity.
Qed.

(** A URI put together from a prefix without [@], a host without [@] and
    [?], and a port text that [int] reads as [n], with or without a query
    after it, comes apart into that host and [n].  The host may have colons
    of its own, as a bracketed IPv6 literal has. *)
Theorem extract_host_port_assembled (pre host t query : string) (n : Z) :
  PyStr.contains "@" pre = false ->
  PyStr.contains "@" host = false ->
  PyStr.contains "?" host = false ->
  PyStr.int t = Some n ->
  extract_host_port (pre ++ "@" ++ host ++ ":" ++ t)
  = Ret (Some host, Some n) /\
  extract_host_port (pre ++ "@" ++ host ++ ":" ++ t ++ "?" ++ query)
  = Ret (Some host, Some n).
Proof.
  intros Hpre Hat Hq Hint.
  assert (Ht : forall x, int_char x = false -> PyStr.contains x t = false).
  { intros x Hx. destruct (PyStr.contains x t) eqn:Hin; [|reflexivity].
    rewrite (int_chars x t n Hint Hin) in Hx. discriminate. }
  assert (Hfree : forall x, PyStr.contains x host = false ->
                            int_char x = false -> Ascii.eqb ":" x = false ->
                            PyStr.contains x (host ++ ":" ++ t) = false).
  { intros x Hh Hx Hc. rewrite contains_app, Hh.
    change (":" ++ t) with (String ":" t).
    rewrite contains_String, Hc. exact (Ht x Hx). }
  assert (Hcolon : PyStr.contains ":" (host ++ ":" ++ t) = true).
  { rewrite contains_app. change (":" ++ t) with (String ":" t). simpl.
    apply orb_true_r. }
  assert (Hcut : before_last ":" (host ++ ":" ++ t) = host /\
                 after_last ":" (host ++ ":" ++ t) = t)
    by exact (last_cut_unique ":" host t (Ht ":"%char eq_refl)).
  destruct Hcut as [Hbl Hal].
  assert (Hgoal : forall uri,
            PyStr.contains "@" uri = true ->
            authority uri = host ++ ":" ++ t ->
            extract_host_port uri = Ret (Some host, Some n)).
  { intros uri Hu Ha. rewrite extract_host_port_spec. unfold malformed.
    rewrite Hu, Ha, Hcolon, Hal, Hbl, Hint. reflexivity. }
  split; apply Hgoal; try apply contains_at_after.
  - rewrite (authority_after_at _ _ Hpre).
    rewrite (before_first_absent "@" _ (Hfree "@"%char Hat eq_refl eq_refl)).
    exact (before_first_absent "?" _ (Hfree "?"%char Hq eq_refl eq_refl)).
  - rewrite (authority_after_at _ _ Hpre).
    replace (host ++ ":" ++ t ++ "?" ++ query)
      with ((host ++ ":" ++ t) ++ "?" ++ query).
    2:{ rewrite !append_assoc. reflexivity. }
    assert (Hb : before_first "?" (before_first "@"
                   ((host ++ ":" ++ t) ++ "?" ++ query))
                 = before_first "?" ((host ++ ":" ++ t) ++ "?" ++ query)).
    { clear Hgoal. generalize (Hfree "@"%char Hat eq_refl eq_refl).
      generalize (Hfree "?"%char Hq eq_refl eq_refl).
      generalize (host ++ ":" ++ t) as a. clear.
      change ("?" ++ query) with (String "?" query).
      induction a as [|x a IH]; intros Hq Hat.
      - rewrite append_Empty. simpl. destruct query; reflexivity.
      - rewrite append_String. simpl in Hq, Hat |- *.
        destruct (Ascii.eqb x "@") eqn:E1; [discriminate|].
        destruct (Ascii.eqb x "?") eqn:E2; [discriminate|].
        simpl. rewrite E2. f_equal. exact (IH Hq Hat). }
    rewrite Hb.
    exact (before_first_cut "?" _ _ (Hfree "?"%char Hq eq_refl eq_refl)).
Qed.

Lemma extract_host_port_assembled_witness :
  PyStr.int "8443" = Some 8443 /\
  extract_host_port ("vless://uuid" ++ "@" ++ "[2001:db8::1]" ++ ":" ++ "8443"
                       ++ "?" ++ "security=tls#A")
  = Ret (Some "[2001:db8::1]", Some 8443).
Proof.
  split; [reflexivity|].
  exact (proj2 (extract_host_port_assembled "vless://uuid" "[2001:db8::1]"
                  "8443" "security=tls#A" 8443
                  eq_refl eq_refl eq_refl eq_refl)).
Defined.

(** What stands before the first [@], scheme and credential, has no say in
    the host and port. *)
Theorem extract_host_port_ignores_prefix (pre pre' rest : string) :
  PyStr.contains "@" pre = false -> PyStr.contains "@" pre' = false ->
  extract_host_port (pre ++ "@" ++ rest)
  = extract_host_port (pre' ++ "@" ++ rest).
Proof.
  intros Hpre Hpre'.
  apply extract_host_port_authority; try apply contains_at_after.
  rewrite !authority_after_at by assumption. reflexivity.
Qed.

Lemma extract_host_port_ignores_prefix_witness :
  extract_host_port ("vless://uuid" ++ "@" ++ "host:443?x=1")
  = extract_host_port ("gopher://pass" ++ "@" ++ "host:443?x=1").
Proof.
  exact (extract_host_port_ignores_prefix "vless://uuid" "gopher://pass"
           "host:443?x=1" eq_refl eq_refl).
Defined.

(** The text after a second [@] is never read: a credential with an [@] of
    its own hides the real host. *)
Theorem extract_host_port_second_at (pre mid rest : string) :
  PyStr.contains "@" pre = false -> PyStr.contains "@" mid = false ->
  extract_host_port (pre ++ "@" ++ mid ++ "@" ++ rest)
  = extract_host_port (pre ++ "@" ++ mid).
Proof.
  intros Hpre Hmid.
  apply extract_host_port_authority; try apply contains_at_after.
  rewrite !authority_after_at by assumption.
  rewrite (before_first_cut "@" _ _ Hmid),
    (before_first_absent "@" _ Hmid).
  reflexivity.
Qed.

Lemma extract_host_port_second_at_witness :
  extract_host_port ("ss://pa" ++ "@" ++ "ss" ++ "@" ++ "host:443")
  = Ret (None, None).
Proof.
  rewrite (extract_host_port_second_at "ss://pa" "ss" "host:443"
             eq_refl eq_refl).
  reflexivity.
Defined.

(** A host that [extract_host_port] returns has neither [@] nor [?] in
    it. *)
Theorem extracted_host_clean (uri host : string) (port : Z) :
  extract_host_port uri = Ret (Some host, Some port) ->
  PyStr.contains "@" host = false /\ PyStr.contains "?" host = false.
Proof.
  rewrite extract_host_port_spec.
  destruct (malformed uri); [discriminate|].
  intros [= <- _]. unfold authority. split.
  - apply before_last_sub, before_first_sub, before_first_free.
  - apply before_last_sub, before_first_free.
Qed.

Lemma extracted_host_clean_witness :
  extract_host_port listed_uri = Ret (Some "proxy.example.com", Some 443) /\
  PyStr.contains "@" "proxy.example.com" = false /\
  PyStr.contains "?" "proxy.example.com" = false.
Proof.
  split; [reflexivity|].
  exact (extracted_host_clean listed_uri "proxy.example.com" 443 eq_refl).
Defined.

(** A character in the port text that is no digit, white space, sign or
    underscore makes the extraction fail. *)
Theorem port_text_foreign_char (uri : string) (x : ascii) :
  int_char x = false ->
  PyStr.contains x (after_last ":" (authority uri)) = true ->
  extract_host_port uri = Ret (None, None).
Proof.
  intros Hx Hin. rewrite extract_host_port_spec.
  assert (Hm : malformed uri = true).
  { apply malformed_cases. right; right.
    exact (int_rejects_char x _ Hx Hin). }
  rewrite Hm. reflexivity.
Qed.

Lemma port_text_foreign_char_witness :
  extract_host_port "vless://uuid@host:443/path" = Ret (None, None).
Proof.
  exact (port_text_foreign_char "vless://uuid@host:443/path" "/"
           eq_refl eq_refl).
Defined.

(** ** [detect_protocol] *)

Lemma lower_char_idem (x : ascii) :
  PyStr.lower_char (PyStr.lower_char x) = PyStr.lower_char x.
Proof. destruct x as [[] [] [] [] [] [] [] []]; reflexivity. Qed.

Lemma lower_idem (s : string) : PyStr.lower (PyStr.lower s) = PyStr.lower s.
Proof.
  induction s as [|x s IH]; simpl; [reflexivity|].
  rewrite lower_char_idem, IH. reflexivity.
Qed.

Lemma lower_app (a b : string) :
  PyStr.lower (a ++ b) = PyStr.lower a ++ PyStr.lower b.
Proof.
  induction a as [|x a IH]; [reflexivity|].
  rewrite append_String. simpl. rewrite IH. reflexivity.
Qed.

(** A lowered text that begins with [s] is the lowering of a text that
    begins with a spelling of [s]. *)
Lemma lower_app_inv (s : string) :
  forall u t, PyStr.lower u = s ++ t ->
  exists p rest, u = p ++ rest /\ PyStr.lower p = s /\ PyStr.lower rest = t.
Proof.
  induction s as [|x s IH]; intros u t Hu.
  - exists EmptyString, u. repeat split. exact Hu.
  - destruct u as [|y u]; [discriminate|].
    rewrite append_String in Hu. simpl in Hu. injection Hu as Hy Hu.
    destruct (IH u t Hu) as (p & rest & -> & Hp & Hrest).
    exists (String y p), rest. rewrite append_String. simpl.
    rewrite Hy, Hp. repeat split. exact Hrest.
Qed.

Lemma startswith_inv (p s : string) :
  PyStr.startswith p s = true -> exists t, s = p ++ t.
Proof.
  unfold PyStr.startswith. revert s.
  induction p as [|x p IH]; intros s.
  - intros _. exists s. reflexivity.
  - destruct s as [|y s]; simpl; [discriminate|].
    destruct (ascii_dec x y) as [<-|]; [|discriminate].
    intros [t ->]%IH. exists t. reflexivity.
Qed.

Lemma startswith_app (p t : string) : PyStr.startswith p (p ++ t) = true.
Proof.
  unfold PyStr.startswith. induction p as [|x p IH].
  - destruct t; reflexivity.
  - rewrite append_String. simpl.
    destruct (ascii_dec x x) as [_|Hx]; [exact IH|].
    exfalso. apply Hx. reflexivity.
Qed.

(** [detect_protocol] answers one of five names. *)
Lemma detect_protocol_range (uri : string) :
  In (detect_protocol uri)
     ["VLESS"; "VMess"; "Trojan"; "ShadowSocks"; "Unknown"].
Proof.
  unfold detect_protocol.
  repeat (match goal with |- context [if ?b then _ else _] => destruct b end);
    simpl; tauto.
Qed.

(** [detect_protocol] answers the name of a scheme exactly for the URIs
    that begin with a spelling, in any mix of upper and lower case, of the
    scheme's prefix; the order in which it tries the prefixes plays no
    part. *)
Theorem detect_protocol_scheme (uri scheme name : string) :
  In (scheme, name) schemes ->
  (detect_protocol uri = name <->
   exists p rest, uri = p ++ rest /\ PyStr.lower p = scheme).
Proof.
  intros Hin. split.
  - intros Hd.
    assert (Hs : PyStr.startswith scheme (PyStr.lower uri) = true).
    { revert Hd. unfold detect_protocol.
      simpl in Hin.
      destruct Hin as [[= <- <-] | [[= <- <-] | [[= <- <-] | [[= <- <-] | []]]]];
        repeat (match goal with
                | |- context [if ?b then _ else _] => destruct b eqn:?
                end);
        solve [discriminate | reflexivity]. }
    apply startswith_inv in Hs as [t Ht].
    apply lower_app_inv in Ht as (p & rest & -> & Hp & _).
    exists p, rest. split; [reflexivity|exact Hp].
  - intros (p & rest & -> & Hp).
    unfold detect_protocol. rewrite lower_app, Hp.
    simpl in Hin.
    destruct Hin as [[= <- <-] | [[= <- <-] | [[= <- <-] | [[= <- <-] | []]]]];
      match goal with
      | |- context [PyStr.startswith ?a (?a ++ ?t)] =>
          rewrite (startswith_app a t)
      end; reflexivity.
Qed.

Lemma detect_protocol_scheme_witness :
  In ("trojan://", "Trojan") schemes /\
  (detect_protocol "TrOjAn://password@host:443" = "Trojan" <->
   exists p rest,
     "TrOjAn://password@host:443" = p ++ rest /\
     PyStr.lower p = "trojan://").
Proof.
  assert (H : In ("trojan://", "Trojan") schemes)
    by (right; right; left; reflexivity).
  split; [exact H|].
  exact (detect_protocol_scheme "TrOjAn://password@host:443" _ _ H).
Defined.

(** Lowering a URI first does not change the protocol found. *)
Theorem detect_protocol_lower (uri : string) :
  detect_protocol (PyStr.lower uri) = detect_protocol uri.
Proof. unfold detect_protocol. rewrite lower_idem. reflexivity. Qed.

(** ** [validate_proxy], outcome by outcome *)

Lemma probed_inv (uri host : string) (port : Z) :
  probed uri = Some (host, port) ->
  extract_host_port uri = Ret (Some host, Some port) /\
  str_truthy host = true /\ port <> 0.
Proof.
  unfold probed.
  destruct (extract_host_port uri) as [[[h|] [p|]]|e]; try discriminate.
  destruct (str_truthy h) eqn:Hh; simpl; [|discriminate].
  destruct (Z.eqb_spec p 0); [discriminate|].
  intros [= <- <-]. split; [reflexivity|]. split; [exact Hh|assumption].
Qed.

Section Outcomes.

Variable N : Net.
Variable cfg : Config.

Lemma validate_proxy_live (uri host : string) (port : Z) (st : State N)
    (w1 : World N) :
  probed uri = Some (host, port) ->
  net_connect N (world st) (TCP_TIMEOUT cfg) host port = (Ret tt, w1) ->
  validate_proxy N cfg uri st =
  match
    try_except
      (let* ip := gethostbyname N host in
       let* rep := stage3_ip_reputation N cfg ip in
       ret (set_ip_reputation rep (set_tcp host port (new_result uri))))
      any_exception
      (ret (set_tcp host port (new_result uri)))
      (after_probe N st w1 host port)
  with
  | (Ret r, st') => (Ret (set_valid r), st')
  | (Raise e, st') => (Raise e, st')
  end.
Proof.
  intros Hp Hc. rewrite (validate_proxy_probed N cfg uri host port st Hp).
  unfold bind at 1. rewrite stage1_tcp_check_eq. simpl world. rewrite Hc.
  reflexivity.
Qed.

(** What a call of [validate_proxy] does to [self] and what it hands back,
    whether it returns or raises. *)
Lemma validate_proxy_outcome (uri : string) (st : State N) res st' :
  validate_proxy N cfg uri st = (res, st') ->
  self_results st' = self_results st /\
  (exists evs, trace st' = (trace st ++ evs)%list) /\
  match res with
  | Ret r =>
      r_uri r = uri /\ r_protocol r = detect_protocol uri /\
      ((r_valid r = false /\ r_host r = None /\ r_port r = None /\
        self_stats st' = incr_total (self_stats st)) \/
       (r_valid r = true /\
        exists host port,
          probed uri = Some (host, port) /\
          r_host r = Some host /\ r_port r = Some port /\
          r_stages r !! "tcp" = Some (StageBool true) /\
          self_stats st' = incr_tcp_live (incr_total (self_stats st))))
  | Raise e =>
      is_OSError e = false /\
      self_stats st' = incr_total (self_stats st) /\
      exists host port,
        probed uri = Some (host, port) /\
        fst (net_connect N (world st) (TCP_TIMEOUT cfg) host port) = Raise e /\
        trace st' =
        (trace st ++ [EStage1 host port; EConnect host port])%list
  end.
Proof.
  destruct (probed uri) as [[host port]|] eqn:Hp.
  - destruct (net_connect N (world st) (TCP_TIMEOUT cfg) host port)
      as [[[]|e] w1] eqn:Hc.
    + rewrite (validate_proxy_live uri host port st w1 Hp Hc).
      destruct (try_except _ _ _ _) as [r3 st3] eqn:Hblk.
      apply reputation_block_inv in Hblk as [(Hs & Hr & evs & Ht) Hcases].
      simpl in Hs, Hr, Ht.
      assert (Hevs : exists evs', trace st3 = (trace st ++ evs')%list).
      { exists ([EStage1 host port; EConnect host port] ++ evs)%list.
        rewrite Ht, <- app_assoc. reflexivity. }
      destruct Hcases as [-> | [rep ->]]; intros [= <- <-];
        (split; [exact Hr|]); (split; [exact Hevs|]);
        (split; [reflexivity|]); (split; [reflexivity|]);
        right; (split; [reflexivity|]); exists host, port;
        repeat split; assumption.
    + rewrite (validate_proxy_probed N cfg uri host port st Hp).
      unfold bind at 1. rewrite stage1_tcp_check_eq. simpl world. rewrite Hc.
      destruct (is_OSError e) eqn:He; intros [= <- <-]; simpl.
      * split; [reflexivity|]. split; [eauto|].
        split; [reflexivity|]. split; [reflexivity|]. left.
        repeat split.
      * split; [reflexivity|]. split; [eauto|].
        split; [exact He|]. split; [reflexivity|].
        exists host, port. rewrite Hc. repeat split; assumption.
  - rewrite (validate_proxy_not_probed N cfg uri st Hp).
    intros [= <- <-]. simpl. split; [reflexivity|].
    split; [exists []; symmetry; apply app_nil_r|].
    split; [reflexivity|]. split; [reflexivity|]. left. repeat split.
Qed.

(** Once the TCP probe has gone through, [validate_proxy] returns a valid
    record with the host, the port and [tcp = True], and counts the proxy
    as live, whatever name resolution and the reputation stage do
    afterwards: nothing they raise gets out. *)
Theorem tcp_pass_always_valid (uri host : string) (port : Z) (st : State N) :
  extract_host_port uri = Ret (Some host, Some port) ->
  str_truthy host = true -> port <> 0 ->
  fst (net_connect N (world st) (TCP_TIMEOUT cfg) host port) = Ret tt ->
  exists r st',
    validate_proxy N cfg uri st = (Ret r, st') /\
    r_valid r = true /\ r_host r = Some host /\ r_port r = Some port /\
    r_stages r !! "tcp" = Some (StageBool true) /\
    self_stats st' = incr_tcp_live (incr_total (self_stats st)).
Proof.
  intros He Hh Hport Hc.
  pose proof (probed_spec uri host port He Hh Hport) as Hp.
  destruct (net_connect N (world st) (TCP_TIMEOUT cfg) host port)
    as [r1 w1] eqn:Hc1. simpl in Hc. subst r1.
  rewrite (validate_proxy_live uri host port st w1 Hp Hc1).
  destruct (try_except _ _ _ _) as [r3 st3] eqn:Hblk.
  apply reputation_block_inv in Hblk as [(Hs & _ & _) Hcases].
  simpl in Hs.
  destruct Hcases as [-> | [rep ->]]; eexists _, _;
    (split; [reflexivity|]); repeat split; exact Hs.
Qed.

(** When the host of a live proxy does not resolve, for whatever reason,
    the record is valid, carries [tcp = True] and no reputation, and stage 3
    is not entered. *)
Theorem unresolved_host_keeps_valid (uri host : string) (port : Z)
    (st : State N) (w1 w2 : World N) (e : exn) :
  extract_host_port uri = Ret (Some host, Some port) ->
  str_truthy host = true -> port <> 0 ->
  net_connect N (world st) (TCP_TIMEOUT cfg) host port = (Ret tt, w1) ->
  net_gethostbyname N w1 host = (Raise e, w2) ->
  validate_proxy N cfg uri st =
  (Ret {| r_uri := uri; r_protocol := detect_protocol uri; r_valid := true;
          r_stages := <["tcp" := StageBool true]> ∅;
          r_host := Some host; r_port := Some port |},
   {| world := w2;
      trace := trace st ++ [EStage1 host port; EConnect host port;
                            EResolve host];
      self_stats := incr_tcp_live (incr_total (self_stats st));
      self_results := self_results st |}).
Proof.
  intros He Hh Hport Hc Hdns.
  pose proof (probed_spec uri host port He Hh Hport) as Hp.
  rewrite (validate_proxy_live uri host port st w1 Hp Hc).
  unfold try_except, bind, gethostbyname, after_probe. simpl. rewrite Hdns.
  unfold ret, with_world. simpl. rewrite <- app_assoc. reflexivity.
Qed.

(** With the reputation stage switched off, a live proxy whose host resolves
    still costs one name lookup; the record then carries the reputation
    [{blacklisted: False}] without [checks], and no DNSBL is asked. *)
Theorem disabled_reputation_recorded (uri host ip : string) (port : Z)
    (st : State N) (w1 w2 : World N) :
  extract_host_port uri = Ret (Some host, Some port) ->
  str_truthy host = true -> port <> 0 ->
  ENABLE_STAGE3_IP_REPUTATION cfg = false ->
  net_connect N (world st) (TCP_TIMEOUT cfg) host port = (Ret tt, w1) ->
  net_gethostbyname N w1 host = (Ret ip, w2) ->
  validate_proxy N cfg uri st =
  (Ret {| r_uri := uri; r_protocol := detect_protocol uri; r_valid := true;
          r_stages :=
            <["ip_reputation" :=
                StageReputation {| blacklisted := false; checks := None |}]>
            (<["tcp" := StageBool true]> ∅);
          r_host := Some host; r_port := Some port |},
   {| world := w2;
      trace := trace st ++ [EStage1 host port; EConnect host port;
                            EResolve host; EStage3 ip];
      self_stats := incr_tcp_live (incr_total (self_stats st));
      self_results := self_results st |}).
Proof.
  intros He Hh Hport Hoff Hc Hdns.
  pose proof (probed_spec uri host port He Hh Hport) as Hp.
  rewrite (validate_proxy_live uri host port st w1 Hp Hc).
  unfold try_except, bind at 1, gethostbyname, after_probe. simpl. rewrite Hdns.
  unfold bind. rewrite (stage3_disabled N cfg ip _ Hoff).
  unfold ret, after_queries, with_world. simpl.
  rewrite <- !app_assoc. reflexivity.
Qed.

(** The whole pipeline on a live proxy: the host resolves to [ip], every
    DNSBL lookup for [ip] resolves or fails with [socket.gaierror], and the
    record comes back valid with [tcp = True] and the reputation of [ip]:
    [blacklisted] when some lookup resolved, and the status of each
    service. *)
Theorem validate_proxy_full_run (uri host ip : string) (port : Z)
    (st : State N) (w1 w2 : World N) :
  extract_host_port uri = Ret (Some host, Some port) ->
  str_truthy host = true -> port <> 0 ->
  ENABLE_STAGE3_IP_REPUTATION cfg = true ->
  net_connect N (world st) (TCP_TIMEOUT cfg) host port = (Ret tt, w1) ->
  net_gethostbyname N w1 host = (Ret ip, w2) ->
  forallb settled (dns_answers w2 (dnsbl_queries ip)) = true ->
  validate_proxy N cfg uri st =
  (Ret {| r_uri := uri; r_protocol := detect_protocol uri; r_valid := true;
          r_stages :=
            <["ip_reputation" :=
                StageReputation
                  {| blacklisted :=
                       existsb resolved (dns_answers w2 (dnsbl_queries ip));
                     checks :=
                       Some (record_checks ∅ dnsbl_hosts
                               (dns_answers w2 (dnsbl_queries ip))) |}]>
            (<["tcp" := StageBool true]> ∅);
          r_host := Some host; r_port := Some port |},
   {| world := snd (dns_run w2 (dnsbl_queries ip));
      trace := trace st ++ [EStage1 host port; EConnect host port;
                            EResolve host; EStage3 ip]
                        ++ map EResolve (dnsbl_queries ip);
      self_stats := incr_tcp_live (incr_total (self_stats st));
      self_results := self_results st |}).
Proof.
  intros He Hh Hport Hon Hc Hdns Hs.
  pose proof (probed_spec uri host port He Hh Hport) as Hp.
  rewrite (validate_proxy_live uri host port st w1 Hp Hc).
  unfold try_except, bind at 1, gethostbyname, after_probe. simpl. rewrite Hdns.
  unfold bind. rewrite (stage3_settled N cfg ip _ Hon); [|exact Hs].
  unfold ret, after_queries, with_world. simpl.
  rewrite <- !app_assoc. reflexivity.
Qed.

End Outcomes.

Section OutcomesOfSelf.

Variable N : Net.
Variable cfg : Config.

(** A record that [validate_proxy] returns carries the URI it was given
    and the protocol detected for it; a valid record carries exactly the
    host and the port that [extract_host_port] gave, an invalid one carries
    neither. *)
Theorem validate_proxy_record_fields (uri : string) (st : State N)
    (r : result) (st' : State N) :
  validate_proxy N cfg uri st = (Ret r, st') ->
  r_uri r = uri /\ r_protocol r = detect_protocol uri /\
  (r_valid r = true -> extract_host_port uri = Ret (r_host r, r_port r)) /\
  (r_valid r = false -> r_host r = None /\ r_port r = None).
Proof.
  intros Hv. apply validate_proxy_outcome in Hv as (_ & _ & Huri & Hproto & Hc).
  split; [exact Huri|]. split; [exact Hproto|].
  destruct Hc as [(Hval & Hh & Hp & _) | (Hval & host & port & Hpr & Hh & Hp & _)].
  - rewrite Hval. split; [discriminate|]. intros _. split; assumption.
  - rewrite Hval, Hh, Hp. split; [|discriminate].
    intros _. exact (proj1 (probed_inv uri host port Hpr)).
Qed.

(** A call of [validate_proxy], whether it returns or raises, adds one to
    [stats.total], adds one to [stats.tcp_live] exactly when it returns a
    valid record, and touches neither [self.results] nor the counters
    [xray_live], [speed_tested] and [stable]. *)
Theorem validate_proxy_counts (uri : string) (st : State N)
    (res : res result) (st' : State N) :
  validate_proxy N cfg uri st = (res, st') ->
  self_results st' = self_results st /\
  total (self_stats st') = total (self_stats st) + 1 /\
  tcp_live (self_stats st')
  = tcp_live (self_stats st)
    + (match res with
       | Ret r => if r_valid r then 1 else 0
       | Raise _ => 0
       end) /\
  xray_live (self_stats st') = xray_live (self_stats st) /\
  speed_tested (self_stats st') = speed_tested (self_stats st) /\
  stable (self_stats st') = stable (self_stats st).
Proof.
  intros Hv. apply validate_proxy_outcome in Hv as (Hr & _ & Hres).
  split; [exact Hr|].
  destruct res as [r|e].
  - destruct Hres as (_ & _ & [(Hval & _ & _ & Hs) | (Hval & h & p & _ & _ & _ & _ & Hs)]);
      rewrite Hs, Hval; simpl; repeat split; lia.
  - destruct Hres as (_ & Hs & _). rewrite Hs. simpl. repeat split; lia.
Qed.

(** What stage 1 does not catch gets out of [validate_proxy]: the call
    raises the same exception, the proxy has been counted in [stats.total]
    but in nothing else, and nothing after the connection attempt was
    run. *)
Theorem stage1_exception_propagates (uri host : string) (port : Z)
    (st : State N) (w1 : World N) (e : exn) :
  extract_host_port uri = Ret (Some host, Some port) ->
  str_truthy host = true -> port <> 0 ->
  net_connect N (world st) (TCP_TIMEOUT cfg) host port = (Raise e, w1) ->
  is_OSError e = false ->
  validate_proxy N cfg uri st =
  (Raise e,
   {| world := w1;
      trace := trace st ++ [EStage1 host port; EConnect host port];
      self_stats := incr_total (self_stats st);
      self_results := self_results st |}).
Proof.
  intros He Hh Hport Hc Hcaught.
  pose proof (probed_spec uri host port He Hh Hport) as Hp.
  rewrite (validate_proxy_probed N cfg uri host port st Hp).
  unfold bind at 1. rewrite stage1_tcp_check_eq. simpl world.
  rewrite Hc, Hcaught. reflexivity.
Qed.

(** *** Batches *)

Lemma run_validation_nil (st : State N) :
  run_validation N cfg [] st = (Ret tt, st).
Proof. reflexivity. Qed.

(** Validating two lists one after the other on one validator is
    validating their concatenation; when the first raises, the second is
    not begun. *)
Theorem run_validation_app (l1 l2 : list string) (st : State N) :
  run_validation N cfg (l1 ++ l2) st =
  match run_validation N cfg l1 st with
  | (Ret _, st1) => run_validation N cfg l2 st1
  | (Raise e, st1) => (Raise e, st1)
  end.
Proof.
  revert st. induction l1 as [|uri l1 IH]; intros st.
  - reflexivity.
  - rewrite <- app_comm_cons, !run_validation_cons.
    destruct (validate_proxy N cfg uri st) as [[r|e] st1]; [|reflexivity].
    apply IH.
Qed.

(** A URI on which [validate_proxy] raises ends the run there: the run
    raises the same exception, the URIs after it are never looked at, and
    what the URIs before it left in [self] stays. *)
Theorem run_validation_aborts (l1 l2 : list string) (uri : string)
    (st st1 st2 : State N) (e : exn) :
  run_validation N cfg l1 st = (Ret tt, st1) ->
  validate_proxy N cfg uri st1 = (Raise e, st2) ->
  run_validation N cfg (l1 ++ uri :: l2) st = (Raise e, st2) /\
  self_results st2 = self_results st1.
Proof.
  intros H1 Hv. split.
  - revert st H1. induction l1 as [|u l1 IH]; intros st.
    + intros [= <-]. simpl. rewrite run_validation_cons, Hv. reflexivity.
    + rewrite <- app_comm_cons, !run_validation_cons.
      destruct (validate_proxy N cfg u st) as [[r|e'] st']; [|discriminate].
      apply IH.
  - exact (proj1 (validate_proxy_outcome N cfg uri st1 _ _ Hv)).
Qed.

(** What a run, completed or not, leaves in [self]: as many records as
    [stats.tcp_live] grew by, each valid, with [tcp = True], its host and
    its port, and for a URI of the input; [stats.total] grows by at most
    the length of the input, and by exactly that when the run completes;
    the other counters stay. *)
Lemma run_validation_outcome (proxies : list string) :
  forall (st : State N) res st',
  run_validation N cfg proxies st = (res, st') ->
  exists new : list result,
    self_results st' = (self_results st ++ new)%list /\
    Forall (fun r => r_valid r = true /\ In (r_uri r) proxies /\
                     r_stages r !! "tcp" = Some (StageBool true) /\
                     extract_host_port (r_uri r) = Ret (r_host r, r_port r))
           new /\
    tcp_live (self_stats st')
    = tcp_live (self_stats st) + Z.of_nat (length new) /\
    total (self_stats st) <= total (self_stats st')
    <= total (self_stats st) + Z.of_nat (length proxies) /\
    (res = Ret tt ->
     total (self_stats st')
     = total (self_stats st) + Z.of_nat (length proxies)) /\
    xray_live (self_stats st') = xray_live (self_stats st) /\
    speed_tested (self_stats st') = speed_tested (self_stats st) /\
    stable (self_stats st') = stable (self_stats st).
Proof.
  induction proxies as [|uri proxies IH]; intros st res st'.
  - intros [= <- <-]. exists []. rewrite app_nil_r. simpl.
    repeat split; try constructor; lia.
  - rewrite run_validation_cons.
    destruct (validate_proxy N cfg uri st) as [[r|e] st1] eqn:Hv.
    + pose proof (validate_proxy_outcome N cfg uri st _ _ Hv)
        as (Hr & _ & Huri & _ & Hcase).
      destruct Hcase as [(Hval & _ & _ & Hs)
                        | (Hval & h & p & Hpr & Hh & Hp & Htcp & Hs)];
        rewrite Hval.
      * intros Hrun.
        destruct (IH _ _ _ Hrun)
          as (new & Hnew & Hall & Hlive & Htot & Hdone & Hx & Hsp & Hst).
        rewrite Hs in Hlive, Htot, Hdone, Hx, Hsp, Hst. rewrite Hr in Hnew.
        simpl in Hlive, Htot, Hdone, Hx, Hsp, Hst.
        exists new. split; [exact Hnew|]. split.
        { eapply Forall_impl; [exact Hall|]. simpl.
          intros a (? & ? & ? & ?). repeat split; auto. }
        simpl length. rewrite Nat2Z.inj_succ.
        split; [lia|]. split; [lia|].
        split; [intros Hres; rewrite (Hdone Hres); lia|].
        repeat split; assumption.
      * intros Hrun.
        destruct (IH _ _ _ Hrun)
          as (new & Hnew & Hall & Hlive & Htot & Hdone & Hx & Hsp & Hst).
        simpl in Hnew, Hlive, Htot, Hdone, Hx, Hsp, Hst.
        rewrite Hs in Hlive, Htot, Hdone, Hx, Hsp, Hst. rewrite Hr in Hnew.
        simpl in Hlive, Htot, Hdone, Hx, Hsp, Hst.
        exists (r :: new). split; [rewrite Hnew, <- app_assoc; reflexivity|].
        split.
        { constructor.
          - rewrite Huri, Hh, Hp. repeat split; auto.
            + left. reflexivity.
            + exact (proj1 (probed_inv uri h p Hpr)).
          - eapply Forall_impl; [exact Hall|]. simpl.
            intros a (? & ? & ? & ?). repeat split; auto. }
        simpl length. rewrite !Nat2Z.inj_succ.
        split; [lia|]. split; [lia|].
        split; [intros Hres; rewrite (Hdone Hres); lia|].
        repeat split; assumption.
    + intros [= <- <-].
      pose proof (validate_proxy_outcome N cfg uri st _ _ Hv)
        as (Hr & _ & _ & Hs & _).
      exists []. rewrite app_nil_r, Hs, Hr. simpl length.
      rewrite Nat2Z.inj_succ. simpl.
      split; [reflexivity|]. split; [constructor|].
      split; [lia|]. split; [lia|]. split; [discriminate|].
      repeat split.
Qed.

(** On a fresh validator a run, completed or cut short by an exception,
    leaves [stats.tcp_live] at the number of records in [self.results] and
    [stats.total] at no more than the number of input URIs, and at exactly
    that number when it completes; every record is valid, stands for a URI
    of the input and carries [tcp = True] and the host and port extracted
    from that URI; the counters [xray_live], [speed_tested] and [stable]
    are still 0. *)
Theorem fresh_run_statistics (proxies : list string) (w : World N)
    (res : res unit) (st' : State N) :
  run_validation N cfg proxies (init N w) = (res, st') ->
  tcp_live (self_stats st') = Z.of_nat (length (self_results st')) /\
  0 <= total (self_stats st') <= Z.of_nat (length proxies) /\
  (res = Ret tt -> total (self_stats st') = Z.of_nat (length proxies)) /\
  Forall (fun r => r_valid r = true /\ In (r_uri r) proxies /\
                   r_stages r !! "tcp" = Some (StageBool true) /\
                   extract_host_port (r_uri r) = Ret (r_host r, r_port r))
         (self_results st') /\
  xray_live (self_stats st') = 0 /\
  speed_tested (self_stats st') = 0 /\
  stable (self_stats st') = 0.
Proof.
  intros Hrun.
  destruct (run_validation_outcome proxies _ _ _ Hrun)
    as (new & Hnew & Hall & Hlive & Htot & Hdone & Hx & Hsp & Hst).
  simpl in Hnew, Hlive, Htot, Hdone, Hx, Hsp, Hst. rewrite Hnew.
  split; [exact Hlive|]. split; [lia|].
  split; [intros Hres; rewrite (Hdone Hres); lia|].
  split; [exact Hall|]. repeat split; assumption.
Qed.

End OutcomesOfSelf.

(** ** Stage 3 on its own *)

Section SplitJoin.

Variable c : ascii.

Lemma split_not_nil (s : string) : PyStr.split c s <> [].
Proof. rewrite split_unfold. discriminate. Qed.

Lemma join_split (s : string) :
  PyStr.join (String c EmptyString) (PyStr.split c s) = s.
Proof.
  induction s as [|x s IH]; [reflexivity|]. simpl PyStr.split.
  destruct (Ascii.eqb x c) eqn:Hx.
  - apply Ascii.eqb_eq in Hx. subst x.
    destruct (PyStr.split c s) as [|h t] eqn:Hs;
      [exact (False_ind _ (split_not_nil s Hs))|].
    change (PyStr.join (String c EmptyString) (EmptyString :: h :: t))
      with (String c (PyStr.join (String c EmptyString) (h :: t))).
    rewrite IH. reflexivity.
  - destruct (PyStr.split c s) as [|h [|y t]] eqn:Hs.
    + exact (False_ind _ (split_not_nil s Hs)).
    + simpl in IH |- *. rewrite IH. reflexivity.
    + change (PyStr.join (String c EmptyString) (String x h :: y :: t))
        with (String x (PyStr.join (String c EmptyString) (h :: y :: t))).
      rewrite IH. reflexivity.
Qed.

Lemma split_parts_free (s : string) :
  Forall (fun x => PyStr.contains c x = false) (PyStr.split c s).
Proof.
  induction s as [|x s IH]; simpl.
  - repeat constructor.
  - destruct (Ascii.eqb x c) eqn:Hx.
    + constructor; [reflexivity|exact IH].
    + destruct (PyStr.split c s) as [|h t].
      * repeat constructor. simpl. rewrite Hx. reflexivity.
      * inversion IH as [|? ? Hh Ht]; subst.
        constructor; [|exact Ht]. simpl. rewrite Hx. exact Hh.
Qed.

Lemma split_join (l : list string) :
  l <> [] -> Forall (fun x => PyStr.contains c x = false) l ->
  PyStr.split c (PyStr.join (String c EmptyString) l) = l.
Proof.
  induction l as [|x [|y l] IH]; intros Hnil Hall.
  - contradiction.
  - simpl. inversion Hall; subst. apply split_absent. assumption.
  - inversion Hall as [|? ? Hx Hrest]; subst.
    change (PyStr.join (String c EmptyString) (x :: y :: l))
      with (x ++ String c EmptyString
              ++ PyStr.join (String c EmptyString) (y :: l)).
    rewrite (split_at_sep c x _ Hx), IH; [reflexivity|discriminate|exact Hrest].
Qed.

End SplitJoin.

(** Reversing the labels of an address twice gives the address back,
    whatever the address is. *)
Theorem reversed_ip_involutive (ip_address : string) :
  reversed_ip (reversed_ip ip_address) = ip_address.
Proof.
  unfold reversed_ip.
  rewrite split_join.
  - rewrite rev_involutive. apply join_split.
  - intros Hrev. apply (split_not_nil "." ip_address).
    rewrite <- (rev_involutive (PyStr.split "." ip_address)), Hrev.
    reflexivity.
  - apply Forall_rev, split_parts_free.
Qed.

Section Stage3.

Variable N : Net.
Variable cfg : Config.

(** The loop of stage 3, however it ends: it asks for the names of the
    services in their order, for all of them when it runs to its end, and
    does nothing else. *)
Lemma dnsbl_loop_trace (reversed : string) (hosts : list string) :
  forall acc (st : State N) r st',
  for_each hosts (dnsbl_check N reversed) acc st = (r, st') ->
  self_stats st' = self_stats st /\ self_results st' = self_results st /\
  exists k,
    (k <= length hosts)%nat /\
    trace st' =
    (trace st
       ++ map EResolve (take k (map (fun svc => reversed ++ "." ++ svc)%string hosts)))
    %list /\
    (forall v, r = Ret v -> k = length hosts).
Proof.
  induction hosts as [|h hosts IH]; intros acc st r st'; simpl.
  - unfold ret. intros [= <- <-]. repeat split. exists 0%nat.
    split; [lia|]. split; [symmetry; apply app_nil_r|reflexivity].
  - unfold bind. rewrite dnsbl_check_eq.
    destruct (net_gethostbyname N (world st) (reversed ++ "." ++ h))
      as [a w1].
    assert (Hnext : forall acc1,
              for_each hosts (dnsbl_check N reversed) acc1
                (with_world N w1 (EResolve (reversed ++ "." ++ h)) st)
              = (r, st') ->
              self_stats st' = self_stats st /\
              self_results st' = self_results st /\
              exists k,
                (k <= S (length hosts))%nat /\
                trace st' =
                (trace st
                   ++ map EResolve
                        (take k ((reversed ++ "." ++ h)%string
                                 :: map (fun svc =>
                                           reversed ++ "." ++ svc)%string
                                        hosts)))%list /\
                (forall v, r = Ret v -> k = S (length hosts))).
    { intros acc1 Hl. apply IH in Hl as (Hs & Hr & k & Hk & Ht & Hret).
      simpl in Hs, Hr, Ht. split; [exact Hs|]. split; [exact Hr|].
      exists (S k). split; [lia|]. split.
      - rewrite Ht, <- app_assoc. reflexivity.
      - intros v Hv. rewrite (Hret v Hv). reflexivity. }
    destruct a as [ip|e]; simpl; [apply Hnext|].
    destruct (is_gaierror e); [apply Hnext|].
    intros [= <- <-]. simpl. repeat split. exists 1%nat.
    split; [lia|]. split; [reflexivity|discriminate].
Qed.

(** Stage 3, however it ends, leaves [self] alone, opens no connection and
    asks the resolver for nothing but the first names of its DNSBL queries,
    in their order: none when the stage is disabled, all three when it
    returns enabled. *)
Theorem stage3_only_asks_dnsbl (ip : string) (st : State N)
    (r : res reputation) (st' : State N) :
  stage3_ip_reputation N cfg ip st = (r, st') ->
  self_stats st' = self_stats st /\ self_results st' = self_results st /\
  exists k,
    (k <= 3)%nat /\
    trace st' =
    (trace st ++ EStage3 ip :: map EResolve (take k (dnsbl_queries ip)))%list /\
    (ENABLE_STAGE3_IP_REPUTATION cfg = false -> k = 0%nat) /\
    (ENABLE_STAGE3_IP_REPUTATION cfg = true ->
     forall rep, r = Ret rep -> k = 3%nat).
Proof.
  unfold stage3_ip_reputation. unfold bind at 1. unfold emit, modify.
  destruct (negb _) eqn:Hflag.
  - apply negb_true_iff in Hflag. rewrite Hflag.
    unfold ret. intros [= <- <-]. simpl. repeat split. exists 0%nat.
    split; [lia|]. split; [reflexivity|]. split; [reflexivity|discriminate].
  - apply negb_false_iff in Hflag. rewrite Hflag.
    unfold bind.
    destruct (for_each _ _ _ _) as [[[b chk]|e] st1] eqn:Hloop;
      apply dnsbl_loop_trace in Hloop as (Hs & Hr & k & Hk & Ht & Hret);
      simpl in Hs, Hr, Ht, Hk; unfold ret; intros [= <- <-];
      (split; [exact Hs|]); (split; [exact Hr|]);
      exists k; (split; [exact Hk|]);
      (split; [rewrite Ht, <- app_assoc; reflexivity|]);
      (split; [discriminate|]); intros _ rep Hrep.
    + exact (Hret _ eq_refl).
    + discriminate.
Qed.

(** The loop stops at the first lookup that raises something other than
    [socket.gaierror]. *)
Lemma dnsbl_loop_raises (reversed : string) (hosts : list string) :
  forall (i : nat) acc (st : State N) (e : exn),
  let qs := map (fun svc => reversed ++ "." ++ svc) hosts in
  dns_answers (world st) qs !! i = Some (Raise e) ->
  is_gaierror e = false ->
  forallb settled (take i (dns_answers (world st) qs)) = true ->
  exists st',
    for_each hosts (dnsbl_check N reversed) acc st = (Raise e, st') /\
    trace st' = (trace st ++ map EResolve (take (S i) qs))%list /\
    self_stats st' = self_stats st /\ self_results st' = self_results st.
Proof.
  unfold dns_answers.
  induction hosts as [|h hosts IH]; intros i acc st e; simpl.
  - intros Hi. discriminate.
  - destruct (net_gethostbyname N (world st) (reversed ++ "." ++ h))
      as [a w1] eqn:Hq.
    destruct (dns_run w1 _) as [rs w2] eqn:Hrun. simpl.
    unfold bind. rewrite dnsbl_check_eq, Hq.
    destruct i as [|i]; simpl.
    + intros [= ->] He _. rewrite He. eexists. repeat split.
    + intros Hi He [Ha Hrs]%andb_prop.
      specialize (IH i).
      assert (Hstep : forall acc1,
                exists st',
                  for_each hosts (dnsbl_check N reversed) acc1
                    (with_world N w1 (EResolve (reversed ++ "." ++ h)) st)
                  = (Raise e, st') /\
                  trace st' =
                  (trace st
                     ++ EResolve (reversed ++ "." ++ h)%string
                        :: map EResolve
                             (take (S i)
                                (map (fun svc =>
                                        reversed ++ "." ++ svc)%string
                                     hosts)))%list /\
                  self_stats st' = self_stats st /\
                  self_results st' = self_results st).
      { intros acc1.
        destruct (IH acc1
                    (with_world N w1 (EResolve (reversed ++ "." ++ h)) st) e)
          as (st' & Hl & Ht & Hs & Hr).
        - simpl. rewrite Hrun. exact Hi.
        - exact He.
        - simpl. rewrite Hrun. exact Hrs.
        - exists st'. split; [exact Hl|]. simpl in Ht, Hs, Hr.
          split; [rewrite Ht, <- app_assoc; reflexivity|].
          split; assumption. }
      destruct a as [ip|e1]; simpl in Ha |- *; [apply Hstep|].
      rewrite Ha. apply Hstep.
Qed.

Lemma stage3_raises_at (ip : string) (i : nat) (st : State N) (e : exn) :
  ENABLE_STAGE3_IP_REPUTATION cfg = true ->
  dns_answers (world st) (dnsbl_queries ip) !! i = Some (Raise e) ->
  is_gaierror e = false ->
  forallb settled (take i (dns_answers (world st) (dnsbl_queries ip))) = true ->
  exists st',
    stage3_ip_reputation N cfg ip st = (Raise e, st') /\
    trace st' =
    (trace st ++ EStage3 ip :: map EResolve (take (S i) (dnsbl_queries ip)))
    %list /\
    self_stats st' = self_stats st /\ self_results st' = self_results st.
Proof.
  intros Hon Hi He Hs.
  unfold stage3_ip_reputation. unfold bind at 1. unfold emit, modify.
  rewrite Hon. unfold bind. cbn beta iota delta [negb].
  destruct (dnsbl_loop_raises (reversed_ip ip) dnsbl_hosts i (false, ∅)
              {| world := world st; trace := trace st ++ [EStage3 ip];
                 self_stats := self_stats st;
                 self_results := self_results st |} e Hi He Hs)
    as (st' & Hl & Ht & Hst & Hr).
  exists st'. rewrite Hl. split; [reflexivity|]. simpl in Ht, Hst, Hr.
  split; [rewrite Ht, <- app_assoc; reflexivity|]. split; assumption.
Qed.

(** Stage 3 does not outlive a lookup that raises something other than
    [socket.gaierror]: it raises the same exception, and the services after
    the one that failed are not asked. *)
Theorem stage3_aborts_on_other_exception (ip : string) (i : nat)
    (st : State N) (e : exn) :
  ENABLE_STAGE3_IP_REPUTATION cfg = true ->
  dns_answers (world st) (dnsbl_queries ip) !! i = Some (Raise e) ->
  is_gaierror e = false ->
  forallb settled (take i (dns_answers (world st) (dnsbl_queries ip))) = true ->
  exists st',
    stage3_ip_reputation N cfg ip st = (Raise e, st') /\
    trace st' =
    (trace st ++ EStage3 ip :: map EResolve (take (S i) (dnsbl_queries ip)))
    %list.
Proof.
  intros Hon Hi He Hs.
  destruct (stage3_raises_at ip i st e Hon Hi He Hs) as (st' & H3 & Ht & _).
  exists st'. split; assumption.
Qed.

(** In [validate_proxy] such an exception of stage 3 is swallowed: the
    record comes back valid, with [tcp = True] and without a reputation. *)
Theorem reputation_failure_swallowed (uri host ip : string) (port : Z)
    (i : nat) (st : State N) (w1 w2 : World N) (e : exn) :
  extract_host_port uri = Ret (Some host, Some port) ->
  str_truthy host = true -> port <> 0 ->
  ENABLE_STAGE3_IP_REPUTATION cfg = true ->
  net_connect N (world st) (TCP_TIMEOUT cfg) host port = (Ret tt, w1) ->
  net_gethostbyname N w1 host = (Ret ip, w2) ->
  dns_answers w2 (dnsbl_queries ip) !! i = Some (Raise e) ->
  is_gaierror e = false ->
  forallb settled (take i (dns_answers w2 (dnsbl_queries ip))) = true ->
  exists st',
    validate_proxy N cfg uri st =
    (Ret {| r_uri := uri; r_protocol := detect_protocol uri; r_valid := true;
            r_stages := <["tcp" := StageBool true]> ∅;
            r_host := Some host; r_port := Some port |}, st') /\
    trace st' =
    (trace st ++ [EStage1 host port; EConnect host port;
                  EResolve host; EStage3 ip]
              ++ map EResolve (take (S i) (dnsbl_queries ip)))%list.
Proof.
  intros He Hh Hport Hon Hc Hdns Hi Hother Hs.
  pose proof (probed_spec uri host port He Hh Hport) as Hp.
  rewrite (validate_proxy_live N cfg uri host port st w1 Hp Hc).
  unfold try_except, bind at 1, gethostbyname, after_probe. simpl. rewrite Hdns.
  unfold bind.
  destruct (stage3_raises_at ip i
              (with_world N w2 (EResolve host)
                 {| world := w1;
                    trace := trace st ++ [EStage1 host port;
                                          EConnect host port];
                    self_stats := incr_tcp_live (incr_total (self_stats st));
                    self_results := self_results st |}) e Hon Hi Hother Hs)
    as (st' & H3 & Ht & _).
  rewrite H3. exists st'. split; [reflexivity|].
  rewrite Ht. simpl. rewrite <- !app_assoc. reflexivity.
Qed.

End Stage3.

(** ** The stages that are not wired in *)




(** ** The properties above on the example networks *)

Lemma tcp_pass_always_valid_witness :
  fst (net_connect nameless_net tt (TCP_TIMEOUT config_py)
         "proxy.example.com" 443) = Ret tt /\
  exists r st',
    validate_proxy nameless_net config_py listed_uri (init nameless_net tt)
    = (Ret r, st') /\
    r_valid r = true /\ r_host r = Some "proxy.example.com" /\
    r_port r = Some 443 /\
    r_stages r !! "tcp" = Some (StageBool true) /\
    self_stats st'
    = incr_tcp_live (incr_total (self_stats (init nameless_net tt))).
Proof.
  split; [reflexivity|].
  apply (tcp_pass_always_valid nameless_net config_py listed_uri
           "proxy.example.com" 443 (init nameless_net tt));
    [reflexivity|reflexivity|lia|reflexivity].
Defined.

Lemma unresolved_host_keeps_valid_witness :
  net_gethostbyname nameless_net tt "proxy.example.com"
  = (Raise socket_gaierror, tt) /\
  fst (validate_proxy nameless_net config_py listed_uri
         (init nameless_net tt))
  = Ret {| r_uri := listed_uri; r_protocol := "VLESS"; r_valid := true;
           r_stages := <["tcp" := StageBool true]> ∅;
           r_host := Some "proxy.example.com"; r_port := Some 443 |}.
Proof.
  split; [reflexivity|].
  rewrite (unresolved_host_keeps_valid nameless_net config_py listed_uri
             "proxy.example.com" 443 (init nameless_net tt) tt tt
             socket_gaierror);
    [reflexivity|reflexivity|reflexivity|lia|reflexivity|reflexivity].
Defined.

Lemma disabled_reputation_recorded_witness :
  ENABLE_STAGE3_IP_REPUTATION config_no_reputation = false /\
  trace (snd (validate_proxy example_net config_no_reputation listed_uri
                example_state))
  = [EStage1 "proxy.example.com" 443; EConnect "proxy.example.com" 443;
     EResolve "proxy.example.com"; EStage3 "203.0.113.5"].
Proof.
  split; [reflexivity|].
  rewrite (disabled_reputation_recorded example_net config_no_reputation
             listed_uri "proxy.example.com" "203.0.113.5" 443
             example_state tt tt);
    [reflexivity|reflexivity|reflexivity|lia|reflexivity|reflexivity
    |reflexivity].
Defined.

Lemma validate_proxy_full_run_witness :
  forallb settled
    (dns_answers (N := example_net) tt (dnsbl_queries "203.0.113.5")) = true /\
  fst (validate_proxy example_net config_py listed_uri example_state)
  = Ret listed_record.
Proof.
  split; [reflexivity|].
  rewrite (validate_proxy_full_run example_net config_py listed_uri
             "proxy.example.com" "203.0.113.5" 443 example_state tt tt);
    [vm_compute; reflexivity|reflexivity|reflexivity|lia|reflexivity
    |reflexivity|reflexivity|reflexivity].
Defined.

Lemma reputation_failure_swallowed_witness :
  dns_answers (N := interrupted_net) tt (dnsbl_queries "203.0.113.5") !! 0%nat
  = Some (Raise KeyboardInterrupt) /\
  exists st',
    validate_proxy interrupted_net config_py listed_uri
      (init interrupted_net tt)
    = (Ret {| r_uri := listed_uri; r_protocol := detect_protocol listed_uri;
              r_valid := true;
              r_stages := <["tcp" := StageBool true]> ∅;
              r_host := Some "proxy.example.com"; r_port := Some 443 |},
       st') /\
    trace st'
    = (trace (init interrupted_net tt)
         ++ [EStage1 "proxy.example.com" 443;
             EConnect "proxy.example.com" 443;
             EResolve "proxy.example.com"; EStage3 "203.0.113.5"]
         ++ map EResolve (take 1 (dnsbl_queries "203.0.113.5")))%list.
Proof.
  split; [reflexivity|].
  apply (reputation_failure_swallowed interrupted_net config_py listed_uri
           "proxy.example.com" "203.0.113.5" 443 0
           (init interrupted_net tt) tt tt KeyboardInterrupt);
    [reflexivity|reflexivity|lia|reflexivity|reflexivity|reflexivity
    |reflexivity|reflexivity|reflexivity].
Defined.

Lemma validate_proxy_record_fields_witness :
  let run := validate_proxy example_net config_py listed_uri example_state in
  run = (Ret listed_record, snd run) /\
  r_uri listed_record = listed_uri /\
  r_protocol listed_record = detect_protocol listed_uri /\
  (r_valid listed_record = true ->
   extract_host_port listed_uri
   = Ret (r_host listed_record, r_port listed_record)) /\
  (r_valid listed_record = false ->
   r_host listed_record = None /\ r_port listed_record = None).
Proof.
  intros run.
  assert (H : run = (Ret listed_record, snd run)) by (vm_compute; reflexivity).
  split; [exact H|].
  exact (validate_proxy_record_fields example_net config_py listed_uri
           example_state listed_record (snd run) H).
Defined.

Lemma validate_proxy_counts_witness :
  let run := validate_proxy example_net config_py closed_uri example_state in
  run = (fst run, snd run) /\
  total (self_stats (snd run)) = total (self_stats example_state) + 1 /\
  self_results (snd run) = self_results example_state.
Proof.
  intros run.
  assert (H : run = (fst run, snd run)) by apply surjective_pairing.
  split; [exact H|].
  destruct (validate_proxy_counts example_net config_py closed_uri
              example_state (fst run) (snd run) H) as (Hr & Ht & _).
  split; [exact Ht|exact Hr].
Defined.

Lemma stage1_exception_propagates_witness :
  net_connect example_net tt (TCP_TIMEOUT config_py) "proxy.example.com" 99999
  = (Raise OverflowError, tt) /\
  is_OSError OverflowError = false /\
  fst (validate_proxy example_net config_py overflow_uri example_state)
  = Raise OverflowError.
Proof.
  split; [reflexivity|]. split; [reflexivity|].
  rewrite (stage1_exception_propagates example_net config_py overflow_uri
             "proxy.example.com" 99999 example_state tt OverflowError);
    [reflexivity|reflexivity|reflexivity|lia|reflexivity|reflexivity].
Defined.

Lemma run_validation_aborts_witness :
  let st1 := snd (run_validation example_net config_py [listed_uri]
                    example_state) in
  let st2 := snd (validate_proxy example_net config_py overflow_uri st1) in
  run_validation example_net config_py [listed_uri] example_state
  = (Ret tt, st1) /\
  validate_proxy example_net config_py overflow_uri st1
  = (Raise OverflowError, st2) /\
  run_validation example_net config_py
    ([listed_uri] ++ overflow_uri :: [closed_uri]) example_state
  = (Raise OverflowError, st2) /\
  self_results st2 = self_results st1.
Proof.
  intros st1 st2.
  assert (H1 : run_validation example_net config_py [listed_uri]
                 example_state = (Ret tt, st1)) by (vm_compute; reflexivity).
  assert (H2 : validate_proxy example_net config_py overflow_uri st1
               = (Raise OverflowError, st2)) by (vm_compute; reflexivity).
  split; [exact H1|]. split; [exact H2|].
  exact (run_validation_aborts example_net config_py [listed_uri]
           [closed_uri] overflow_uri example_state st1 st2 OverflowError
           H1 H2).
Defined.

Lemma fresh_run_statistics_witness :
  let proxies := [garbage_uri; listed_uri; closed_uri] in
  let run := run_validation example_net config_py proxies
               (init example_net tt) in
  run = (fst run, snd run) /\
  tcp_live (self_stats (snd run))
  = Z.of_nat (length (self_results (snd run))) /\
  0 <= total (self_stats (snd run)) <= Z.of_nat (length proxies).
Proof.
  intros proxies run.
  assert (H : run = (fst run, snd run)) by apply surjective_pairing.
  split; [exact H|].
  destruct (fresh_run_statistics example_net config_py proxies tt
              (fst run) (snd run) H) as (Hlive & Htot & _).
  split; [exact Hlive|exact Htot].
Defined.


Lemma stage3_only_asks_dnsbl_witness :
  let run := stage3_ip_reputation example_net config_py "203.0.113.5"
               example_state in
  run = (fst run, snd run) /\
  self_stats (snd run) = self_stats example_state /\
  self_results (snd run) = self_results example_state.
Proof.
  intros run.
  assert (H : run = (fst run, snd run)) by apply surjective_pairing.
  split; [exact H|].
  destruct (stage3_only_asks_dnsbl example_net config_py "203.0.113.5"
              example_state (fst run) (snd run) H) as (Hs & Hr & _).
  split; [exact Hs|exact Hr].
Defined.

Lemma stage3_aborts_on_other_exception_witness :
  dns_answers (N := interrupted_net) tt (dnsbl_queries "203.0.113.5") !! 0%nat
  = Some (Raise KeyboardInterrupt) /\
  exists st',
    stage3_ip_reputation interrupted_net config_py "203.0.113.5"
      (init interrupted_net tt)
    = (Raise KeyboardInterrupt, st') /\
    trace st'
    = (trace (init interrupted_net tt)
         ++ EStage3 "203.0.113.5"
            :: map EResolve (take 1 (dnsbl_queries "203.0.113.5")))%list.
Proof.
  split; [reflexivity|].
  apply (stage3_aborts_on_other_exception interrupted_net config_py
           "203.0.113.5" 0 (init interrupted_net tt) KeyboardInterrupt);
    reflexivity.
Defined.
